(** * SuperMon: the task and workflow orchestration layer

    A shallow embedding of [backend/app/services/agent_manager.py],
    [backend/app/services/mcp_manager.py] and of the five agent classes under
    [backend/app/services/agents/], followed by the properties of the
    orchestration layer that the specification states.

    Python dictionaries that are only looked up and updated are finite maps
    ([gmap]); the two dictionaries whose iteration order the code relies on
    ([AgentManager.agents] and [MCPManager.endpoints]) are insertion-ordered
    association lists.  Coroutines are run to completion one after the other:
    an [await] is a call. *)

From Stdlib Require Import ZArith.
From stdpp Require Import gmap strings list pretty.

Set Warnings "-register-all".
Local Open Scope Z_scope.

(** ** Python values *)

(** The JSON-compatible values that travel through the layer as task
    payloads and results ([Dict[str, Any]] and [Any] in the source). *)
Inductive pyval : Type :=
| VNone
| VBool (b : bool)
| VInt (z : Z)
| VStr (s : string)
| VList (l : list pyval)
| VDict (d : gmap string pyval).

Definition py_type_name (v : pyval) : string :=
  match v with
  | VNone => "NoneType"
  | VBool _ => "bool"
  | VInt _ => "int"
  | VStr _ => "str"
  | VList _ => "list"
  | VDict _ => "dict"
  end.

(** [v == "literal"]: only a string compares equal to a string literal. *)
Definition py_eq_str (v : pyval) (lit : string) : bool :=
  match v with
  | VStr s => String.eqb s lit
  | _ => false
  end.

(** ** The agent types *)

Inductive AgentType : Type :=
| REQUIREMENTS
| PLANNING
| DEVELOPMENT
| TESTING
| COMMUNICATION.

Global Instance AgentType_eq_dec : EqDecision AgentType.
Proof. solve_decision. Defined.

Definition AgentType_value (t : AgentType) : string :=
  match t with
  | REQUIREMENTS => "requirements"
  | PLANNING => "planning"
  | DEVELOPMENT => "development"
  | TESTING => "testing"
  | COMMUNICATION => "communication"
  end.

(** ** Exceptions *)

Inductive ExnClass : Type :=
| ValueError
| RuntimeError
| TypeError
| AttributeError
| ConnectionError
| Exception.

(** The text of an exception is kept as the pieces of the f-string that
    built it: the literal parts and the interpolated values. *)
Inductive frag : Type :=
| Lit (s : string)
| FmtVal (v : pyval)
| FmtAgentType (t : AgentType).

Definition message : Type := list frag.

Record exn : Type := mkExn { exn_class : ExnClass; exn_msg : message }.

(** [str(e)] *)
Definition str_exn (e : exn) : message := exn_msg e.

Inductive outcome (A : Type) : Type :=
| Ok (a : A)
| Raise (e : exn).
Arguments Ok {A} a.
Arguments Raise {A} e.

(** [d.get(key, dflt)]; an object that is not a dictionary has no [get]. *)
Definition py_get (d : pyval) (key : string) (dflt : pyval) : outcome pyval :=
  match d with
  | VDict m => Ok (default dflt (m !! key))
  | _ => Raise (mkExn AttributeError
                  [Lit "'"; Lit (py_type_name d); Lit "' object has no attribute 'get'"])
  end.

(** ** Insertion-ordered dictionaries

    [for k, v in d.items()] visits the keys in the order of their first
    insertion; assigning to a key that is present keeps its place. *)
Module odict.
Definition t (K V : Type) : Type := list (K * V).

Fixpoint get {K V} `{EqDecision K} (d : t K V) (k : K) : option V :=
  match d with
  | [] => None
  | (k', v) :: d' => if decide (k = k') then Some v else get d' k
  end.

Fixpoint set {K V} `{EqDecision K} (k : K) (v : V) (d : t K V) : t K V :=
  match d with
  | [] => [(k, v)]
  | (k', v') :: d' =>
      if decide (k = k') then (k, v) :: d' else (k', v') :: set k v d'
  end.

Definition keys {K V} (d : t K V) : list K := fst <$> d.
End odict.

(** ** Time

    A [datetime] is counted in microseconds, the resolution of Python's
    [datetime.now()]. *)
Definition datetime : Type := Z.

(** ** Log records

    One constructor per [logger.info], [logger.warning] or [logger.error]
    call of [mcp_manager.py] and [agent_manager.py]; the arguments are the
    values interpolated in the logged text. *)
Inductive LogRecord : Type :=
| LogMcpInitializing
| LogMcpConnected (service_name : string)
| LogMcpConnectionFailed (service_name : string)
| LogMcpConnectionError (service_name : string) (e : exn)
| LogMcpInitialized
| LogMcpCleaningUp
| LogMcpCleanupCompleted
| LogMessageSent (service : string)
| LogSendFailed (service : string) (error_text : string)
| LogSendError (service : string) (e : exn)
| LogManagerInitializing
| LogAgentInitialized (agent_type : AgentType)
| LogManagerInitialized
| LogManagerCleaningUp
| LogAgentCleanedUp (agent_type : AgentType)
| LogManagerCleanupCompleted
| LogTaskCreated (task_id : string) (agent_type : AgentType)
| LogTaskExecuting (task_id : string) (agent_type : AgentType)
| LogTaskCompleted (task_id : string)
| LogTaskFailed (task_id : string) (e : exn)
| LogWorkflowStarting (project_id : Z)
| LogWorkflowCompleted (project_id : Z)
| LogAnalyzingConversations (project_id : Z)
| LogGeneratingEpics (project_id : Z)
| LogSchedulingMeetings (project_id : Z)
| LogUpdatingStory (story_id : Z) (status : string).

(** ** Methods as state transformers

    A method runs on the object [self], on the outside world [Env] (the
    clock, the network, the language model) and on the log.  It returns a
    value or raises; what it changed before raising stays changed. *)
Record Sys (Env Obj : Type) : Type := mkSys {
  sys_env : Env;
  sys_log : list LogRecord;
  self : Obj;
}.
Arguments mkSys {Env Obj} _ _ _.
Arguments sys_env {Env Obj} _.
Arguments sys_log {Env Obj} _.
Arguments self {Env Obj} _.

Definition M (S A : Type) : Type := S → outcome A * S.

Global Instance M_ret {S} : MRet (M S) := λ A a s, (Ok a, s).

Global Instance M_bind {S} : MBind (M S) := λ A B f m s,
  match m s with
  | (Ok a, s') => f a s'
  | (Raise e, s') => (Raise e, s')
  end.

Definition raise {S A} (e : exn) : M S A := λ s, (Raise e, s).

(** [try: body except Exception as e: handler e] *)
Definition try_except {S A} (body : M S A) (handler : exn → M S A) : M S A := λ s,
  match body s with
  | (Ok a, s') => (Ok a, s')
  | (Raise e, s') => handler e s'
  end.

(** An action on the outside world. *)
Definition Ext (Env A : Type) : Type := Env → outcome A * Env.

Section SysOps.
Context {Env Obj : Type}.

Definition get_self : M (Sys Env Obj) Obj := λ s, (Ok (self s), s).

Definition modify_self (f : Obj → Obj) : M (Sys Env Obj) unit := λ s,
  (Ok tt, mkSys (sys_env s) (sys_log s) (f (self s))).

Definition logger (r : LogRecord) : M (Sys Env Obj) unit := λ s,
  (Ok tt, mkSys (sys_env s) (sys_log s ++ [r]) (self s)).

Definition ext {A} (f : Ext Env A) : M (Sys Env Obj) A := λ s,
  let '(r, env') := f (sys_env s) in (r, mkSys env' (sys_log s) (self s)).

Definition ext_total {A} (f : Env → A * Env) : M (Sys Env Obj) A := λ s,
  let '(a, env') := f (sys_env s) in (Ok a, mkSys env' (sys_log s) (self s)).

(** [for x in xs: body x] *)
Fixpoint for_each {A} (xs : list A) (body : A → M (Sys Env Obj) unit)
  : M (Sys Env Obj) unit :=
  match xs with
  | [] => mret tt
  | x :: xs' => body x;; for_each xs' body
  end.
End SysOps.

(** ** What the layer is given

    The settings of [app.core.config], the clock, the text renderings of
    the standard library, and the HTTP session. *)
Record Settings : Type := mkSettings {
  SLACK_MCP_ENDPOINT : string;
  WHATSAPP_MCP_ENDPOINT : string;
  WEBEX_MCP_ENDPOINT : string;
  NOTION_MCP_ENDPOINT : string;
  GITHUB_MCP_ENDPOINT : string;
  POSTGRESQL_MCP_ENDPOINT : string;
  FILESYSTEM_MCP_ENDPOINT : string;
  DOCKER_MCP_ENDPOINT : string;
  REDIS_MCP_ENDPOINT : string;
  TLDV_MCP_ENDPOINT : string;
  GEMINI_API_KEY : option string;
}.

(** The defaults of [config.py]. *)
Definition default_settings : Settings := {|
  SLACK_MCP_ENDPOINT := "http://localhost:8001";
  WHATSAPP_MCP_ENDPOINT := "http://localhost:8002";
  WEBEX_MCP_ENDPOINT := "http://localhost:8003";
  NOTION_MCP_ENDPOINT := "http://localhost:8004";
  GITHUB_MCP_ENDPOINT := "http://localhost:8005";
  POSTGRESQL_MCP_ENDPOINT := "http://localhost:8006";
  FILESYSTEM_MCP_ENDPOINT := "http://localhost:8007";
  DOCKER_MCP_ENDPOINT := "http://localhost:8008";
  REDIS_MCP_ENDPOINT := "http://localhost:8009";
  TLDV_MCP_ENDPOINT := "http://localhost:8010";
  GEMINI_API_KEY := None;
|}.

(** An HTTP response: its status, and the two ways the code reads its body
    ([await response.json()], [await response.text()]). *)
Record HttpResponse (Env : Type) : Type := mkResponse {
  resp_status : Z;
  resp_json : Ext Env pyval;
  resp_text : Ext Env string;
}.
Arguments mkResponse {Env} _ _ _.
Arguments resp_status {Env} _.
Arguments resp_json {Env} _.
Arguments resp_text {Env} _.

Class Runtime (Env : Type) : Type := {
  settings : Settings;
  (** [datetime.now()] *)
  datetime_now : Env → datetime * Env;
  (** the text of [{d.timestamp()}] inside an f-string *)
  timestamp_text : datetime → string;
  (** [d.isoformat()] *)
  isoformat : datetime → string;
  (** [async with session.get(url) as response] *)
  session_get : string → Ext Env (HttpResponse Env);
  (** [async with session.post(url, json=data) as response] *)
  session_post : string → pyval → Ext Env (HttpResponse Env);
}.

(** ** [mcp_manager.py] *)
Module MCPManager.

(** An entry of [self.connections]: the dictionary with the keys
    ["endpoint"], ["status"], ["last_check"] and, after a transport
    failure, ["error"]. *)
Record Connection : Type := mkConnection {
  endpoint : string;
  status : string;
  last_check : datetime;
  error : option message;
}.

(** An [aiohttp.ClientSession], open or closed. *)
Record ClientSession : Type := aiohttp_ClientSession { closed : bool }.

Record t : Type := mk {
  connections : gmap string Connection;
  endpoints : odict.t string string;
  is_initialized : bool;
  session : option ClientSession;
}.

Definition set_connections (f : gmap string Connection → gmap string Connection)
    (m : t) : t :=
  mk (f (connections m)) (endpoints m) (is_initialized m) (session m).
Definition set_is_initialized (b : bool) (m : t) : t :=
  mk (connections m) (endpoints m) b (session m).
Definition set_session (o : option ClientSession) (m : t) : t :=
  mk (connections m) (endpoints m) (is_initialized m) o.

Section Methods.
Context {Env : Type} `{!Runtime Env}.

Definition __init__ : t := {|
  connections := ∅;
  endpoints := [
    ("slack", SLACK_MCP_ENDPOINT settings);
    ("whatsapp", WHATSAPP_MCP_ENDPOINT settings);
    ("webex", WEBEX_MCP_ENDPOINT settings);
    ("notion", NOTION_MCP_ENDPOINT settings);
    ("github", GITHUB_MCP_ENDPOINT settings);
    ("postgresql", POSTGRESQL_MCP_ENDPOINT settings);
    ("filesystem", FILESYSTEM_MCP_ENDPOINT settings);
    ("docker", DOCKER_MCP_ENDPOINT settings);
    ("redis", REDIS_MCP_ENDPOINT settings);
    ("tldv", TLDV_MCP_ENDPOINT settings)
  ];
  is_initialized := false;
  session := None;
|}.

(** The body of the probing loop of [initialize], for one service. *)
Definition probe (service_name endpoint : string) : M (Sys Env t) unit :=
  try_except
    (response ← ext (session_get (endpoint +:+ "/health"));
     if resp_status response =? 200 then
       now ← ext_total datetime_now;
       modify_self (set_connections
         <[service_name := mkConnection endpoint "connected" now None]>);;
       logger (LogMcpConnected service_name)
     else
       now ← ext_total datetime_now;
       modify_self (set_connections
         <[service_name := mkConnection endpoint "error" now None]>);;
       logger (LogMcpConnectionFailed service_name))
    (λ e,
       now ← ext_total datetime_now;
       modify_self (set_connections
         <[service_name := mkConnection endpoint "error" now (Some (str_exn e))]>);;
       logger (LogMcpConnectionError service_name e)).

Definition initialize : M (Sys Env t) unit :=
  m ← get_self;
  if is_initialized m then mret tt
  else
    logger LogMcpInitializing;;
    modify_self (set_session (Some (aiohttp_ClientSession false)));;
    for_each (endpoints m) (λ '(service_name, endpoint), probe service_name endpoint);;
    modify_self (set_is_initialized true);;
    logger LogMcpInitialized.

(** [await self.session.close()] *)
Definition close (c : ClientSession) : ClientSession := aiohttp_ClientSession true.

Definition cleanup : M (Sys Env t) unit :=
  logger LogMcpCleaningUp;;
  modify_self (λ m, set_session (close <$> session m) m);;
  modify_self (set_connections (λ _, ∅));;
  modify_self (set_is_initialized false);;
  logger LogMcpCleanupCompleted.

(** [self.session.post(url, json=data)]: [self.session] is [None]
    until [initialize] has run, and closed once [cleanup] has. *)
Definition post (m : t) (url : string) (data : pyval)
    : M (Sys Env t) (HttpResponse Env) :=
  match session m with
  | Some c =>
      if closed c then raise (mkExn RuntimeError [Lit "Session is closed"])
      else ext (session_post url data)
  | None => raise (mkExn AttributeError
                     [Lit "'NoneType' object has no attribute 'post'"])
  end.

Definition send_message (service : string) (message_data : pyval)
    : M (Sys Env t) pyval :=
  m ← get_self;
  match connections m !! service with
  | None =>
      raise (mkExn ValueError [Lit "Service "; Lit service; Lit " not available"])
  | Some conn =>
      if negb (String.eqb (status conn) "connected") then
        raise (mkExn ConnectionError
                 [Lit "Service "; Lit service; Lit " not connected"])
      else
        let endpoint := endpoint conn in
        try_except
          (response ← post m (endpoint +:+ "/send") message_data;
           if resp_status response =? 200 then
             result ← ext (resp_json response);
             logger (LogMessageSent service);;
             mret result
           else
             error_text ← ext (resp_text response);
             logger (LogSendFailed service error_text);;
             raise (mkExn Exception
                      [Lit "Failed to send message: "; Lit error_text]))
          (λ e, logger (LogSendError service e);; raise e)
  end.

(** [get_available_services], as the set of the names it lists; the list
    has no repetition, its elements being keys of [self.connections]. *)
Definition get_available_services (m : t) : gset string :=
  dom (filter (λ kv, status kv.2 = "connected") (connections m)).
End Methods.
End MCPManager.

(** ** [agent_manager.py] *)

(** The reference to the manager's [MCPManager] object that is handed to
    the agents' constructors. *)
Inductive MCPRef : Type := mcp_manager_ref.

(** The names that [agent_manager.py] imports from the agent modules, and
    the three methods it calls on the objects of [self.agents] (which is a
    [Dict[AgentType, Any]]).  An agent's methods act on the agent and on
    the outside world; [initialize] and [cleanup] return the agent as they
    leave it. *)
Class AgentClasses (Env Agent : Type) : Type := {
  (** [RequirementsAgent(self.mcp_manager)], [PlanningAgent(self.mcp_manager)],
      ...: the class bound to the agent type, called with one positional
      argument *)
  agent_new : AgentType → MCPRef → Ext Env Agent;
  (** [await agent.initialize()] *)
  agent_initialize : Agent → Ext Env Agent;
  (** [await agent.cleanup()] *)
  agent_cleanup : Agent → Ext Env Agent;
  (** [await agent.execute_task(task_data)] *)
  agent_execute_task : Agent → pyval → Ext Env pyval;
}.

Module AgentTask.
Record t : Type := mk {
  id : string;
  agent_type : AgentType;
  project_id : Z;
  task_data : pyval;
  priority : string;
  status : string;
  created_at : option datetime;
  completed_at : option datetime;
  result : pyval;
  error : option message;
}.

Definition set_status (v : string) (k : t) : t :=
  mk (id k) (agent_type k) (project_id k) (task_data k) (priority k) v
     (created_at k) (completed_at k) (result k) (error k).
Definition set_completed_at (v : option datetime) (k : t) : t :=
  mk (id k) (agent_type k) (project_id k) (task_data k) (priority k) (status k)
     (created_at k) v (result k) (error k).
Definition set_result (v : pyval) (k : t) : t :=
  mk (id k) (agent_type k) (project_id k) (task_data k) (priority k) (status k)
     (created_at k) (completed_at k) v (error k).
Definition set_error (v : option message) (k : t) : t :=
  mk (id k) (agent_type k) (project_id k) (task_data k) (priority k) (status k)
     (created_at k) (completed_at k) (result k) v.
End AgentTask.

(** The dictionary that [get_task_status] returns. *)
Module TaskStatus.
Record t : Type := mk {
  id : string;
  agent_type : string;
  status : string;
  created_at : option string;
  completed_at : option string;
  error : option message;
  result : pyval;
}.
End TaskStatus.

Module AgentManager.

Record t (Agent : Type) : Type := mk {
  agents : odict.t AgentType Agent;
  tasks : gmap string AgentTask.t;
  mcp_manager : option MCPManager.t;
  is_initialized : bool;
}.
Arguments mk {Agent} _ _ _ _.
Arguments agents {Agent} _.
Arguments tasks {Agent} _.
Arguments mcp_manager {Agent} _.
Arguments is_initialized {Agent} _.

Section Methods.
Context {Env Agent : Type} `{!Runtime Env} `{!AgentClasses Env Agent}.

Abbreviation state := (Sys Env (t Agent)).

Definition set_agents (f : odict.t AgentType Agent → odict.t AgentType Agent)
    (m : t Agent) : t Agent :=
  mk (f (agents m)) (tasks m) (mcp_manager m) (is_initialized m).
Definition set_tasks (f : gmap string AgentTask.t → gmap string AgentTask.t)
    (m : t Agent) : t Agent :=
  mk (agents m) (f (tasks m)) (mcp_manager m) (is_initialized m).
Definition set_mcp_manager (o : option MCPManager.t) (m : t Agent) : t Agent :=
  mk (agents m) (tasks m) o (is_initialized m).
Definition set_is_initialized (b : bool) (m : t Agent) : t Agent :=
  mk (agents m) (tasks m) (mcp_manager m) b.

Definition __init__ : t Agent := {|
  agents := [];
  tasks := ∅;
  mcp_manager := None;
  is_initialized := false;
|}.

(** A method of [self.mcp_manager], run from a method of the manager. *)
Definition on_mcp_manager {A} (method : M (Sys Env MCPManager.t) A) : M state A := λ s,
  match mcp_manager (self s) with
  | None =>
      (Raise (mkExn AttributeError [Lit "'NoneType' object has no attribute"]), s)
  | Some mcp =>
      let '(r, s') := method (mkSys (sys_env s) (sys_log s) mcp) in
      (r, mkSys (sys_env s') (sys_log s') (set_mcp_manager (Some (self s')) (self s)))
  end.

(** [self.agents[agent_type] = Class(self.mcp_manager)] *)
Definition register (agent_type : AgentType) : M state unit :=
  agent ← ext (agent_new agent_type mcp_manager_ref);
  modify_self (set_agents (odict.set agent_type agent)).

Definition initialize : M state unit :=
  m ← get_self;
  if is_initialized m then mret tt
  else
    logger LogManagerInitializing;;
    modify_self (set_mcp_manager (Some MCPManager.__init__));;
    on_mcp_manager MCPManager.initialize;;
    register REQUIREMENTS;;
    register PLANNING;;
    register DEVELOPMENT;;
    register TESTING;;
    register COMMUNICATION;;
    m ← get_self;
    for_each (agents m) (λ '(agent_type, agent),
      agent' ← ext (agent_initialize agent);
      modify_self (set_agents (odict.set agent_type agent'));;
      logger (LogAgentInitialized agent_type));;
    modify_self (set_is_initialized true);;
    logger LogManagerInitialized.

Definition cleanup : M state unit :=
  logger LogManagerCleaningUp;;
  m ← get_self;
  for_each (agents m) (λ '(agent_type, agent),
    agent' ← ext (agent_cleanup agent);
    modify_self (set_agents (odict.set agent_type agent'));;
    logger (LogAgentCleanedUp agent_type));;
  m ← get_self;
  (if mcp_manager m is Some _ then on_mcp_manager MCPManager.cleanup else mret tt);;
  modify_self (set_is_initialized false);;
  logger LogManagerCleanupCompleted.

Definition create_task (agent_type : AgentType) (project_id : Z)
    (task_data : pyval) (priority : string) : M state string :=
  now ← ext_total datetime_now;
  let task_id :=
    AgentType_value agent_type +:+ "_" +:+ pretty project_id +:+ "_"
      +:+ timestamp_text now in
  now ← ext_total datetime_now;
  let task := {|
    AgentTask.id := task_id;
    AgentTask.agent_type := agent_type;
    AgentTask.project_id := project_id;
    AgentTask.task_data := task_data;
    AgentTask.priority := priority;
    AgentTask.status := "pending";
    AgentTask.created_at := Some now;
    AgentTask.completed_at := None;
    AgentTask.result := VNone;
    AgentTask.error := None;
  |} in
  modify_self (set_tasks <[task_id := task]>);;
  logger (LogTaskCreated task_id agent_type);;
  mret task_id.

(** An assignment to an attribute of the task object [self.tasks[task_id]]. *)
Definition assign (task_id : string) (f : AgentTask.t → AgentTask.t) : M state unit :=
  modify_self (set_tasks (alter f task_id)).

(** The [try] block of [execute_task] has one [await], the call of the
    agent.  These are the statements that come before it: the agent is
    awaited in the state that they leave. *)
Definition mark_running (task_id : string) (task : AgentTask.t) : M state unit :=
  logger (LogTaskExecuting task_id (AgentTask.agent_type task));;
  assign task_id (AgentTask.set_status "running").

(** The statements of the [try] block that follow the [await]. *)
Definition mark_completed (task_id : string) (result : pyval) : M state pyval :=
  assign task_id (AgentTask.set_status "completed");;
  now ← ext_total datetime_now;
  assign task_id (AgentTask.set_completed_at (Some now));;
  assign task_id (AgentTask.set_result result);;
  logger (LogTaskCompleted task_id);;
  mret result.

(** The [except Exception as e] clause. *)
Definition mark_failed (task_id : string) (e : exn) : M state pyval :=
  assign task_id (AgentTask.set_status "failed");;
  assign task_id (AgentTask.set_error (Some (str_exn e)));;
  logger (LogTaskFailed task_id e);;
  raise e.

Definition execute_task (task_id : string) : M state pyval :=
  m ← get_self;
  match tasks m !! task_id with
  | None => raise (mkExn ValueError [Lit "Task "; Lit task_id; Lit " not found"])
  | Some task =>
      match odict.get (agents m) (AgentTask.agent_type task) with
      | None =>
          raise (mkExn ValueError
                   [Lit "Agent type "; FmtAgentType (AgentTask.agent_type task);
                    Lit " not found"])
      | Some agent =>
          try_except
            (mark_running task_id task;;
             result ← ext (agent_execute_task agent (AgentTask.task_data task));
             mark_completed task_id result)
            (mark_failed task_id)
      end
  end.

(** One of the five blocks of [execute_workflow]: they differ in the
    stage key and in the agent type only. *)
Definition workflow_stage (key : string) (agent_type : AgentType) (project_id : Z)
    (workflow_data : gmap string pyval) (workflow_results : gmap string pyval)
    : M state (gmap string pyval) :=
  match workflow_data !! key with
  | Some stage_data =>
      task_id ← create_task agent_type project_id stage_data "medium";
      r ← execute_task task_id;
      mret (<[key := r]> workflow_results)
  | None => mret workflow_results
  end.

Definition execute_workflow (project_id : Z) (workflow_data : gmap string pyval)
    : M state (gmap string pyval) :=
  logger (LogWorkflowStarting project_id);;
  let workflow_results : gmap string pyval := ∅ in
  workflow_results ←
    workflow_stage "requirements" REQUIREMENTS project_id workflow_data workflow_results;
  workflow_results ←
    workflow_stage "planning" PLANNING project_id workflow_data workflow_results;
  workflow_results ←
    workflow_stage "development" DEVELOPMENT project_id workflow_data workflow_results;
  workflow_results ←
    workflow_stage "testing" TESTING project_id workflow_data workflow_results;
  workflow_results ←
    workflow_stage "communication" COMMUNICATION project_id workflow_data workflow_results;
  logger (LogWorkflowCompleted project_id);;
  mret workflow_results.

Definition analyze_conversations (project_id : Z) (conversations : list pyval)
    : M state pyval :=
  logger (LogAnalyzingConversations project_id);;
  let task_data := VDict {[
    "conversations" := VList conversations;
    "project_id" := VInt project_id;
    "analysis_type" := VStr "requirements_extraction"
  ]} in
  task_id ← create_task REQUIREMENTS project_id task_data "medium";
  execute_task task_id.

Definition generate_epics_and_stories (project_id : Z) (requirements : pyval)
    : M state pyval :=
  logger (LogGeneratingEpics project_id);;
  let task_data := VDict {[
    "requirements" := requirements;
    "project_id" := VInt project_id;
    "planning_type" := VStr "epic_story_generation"
  ]} in
  task_id ← create_task PLANNING project_id task_data "medium";
  execute_task task_id.

Definition schedule_meetings (project_id : Z) (meeting_data : pyval) : M state pyval :=
  logger (LogSchedulingMeetings project_id);;
  let task_data := VDict {[
    "meeting_data" := meeting_data;
    "project_id" := VInt project_id;
    "communication_type" := VStr "meeting_scheduling"
  ]} in
  task_id ← create_task COMMUNICATION project_id task_data "medium";
  execute_task task_id.

Definition update_user_story_status (project_id story_id : Z) (status : string)
    (completion_data : pyval) : M state pyval :=
  logger (LogUpdatingStory story_id status);;
  let task_data := VDict {[
    "story_id" := VInt story_id;
    "status" := VStr status;
    "completion_data" := completion_data;
    "project_id" := VInt project_id;
    "update_type" := VStr "story_status_update"
  ]} in
  task_id ← create_task PLANNING project_id task_data "medium";
  execute_task task_id.

Definition get_task_status (m : t Agent) (task_id : string) : option TaskStatus.t :=
  match tasks m !! task_id with
  | None => None
  | Some task => Some {|
      TaskStatus.id := AgentTask.id task;
      TaskStatus.agent_type := AgentType_value (AgentTask.agent_type task);
      TaskStatus.status := AgentTask.status task;
      TaskStatus.created_at := isoformat <$> AgentTask.created_at task;
      TaskStatus.completed_at := isoformat <$> AgentTask.completed_at task;
      TaskStatus.error := AgentTask.error task;
      TaskStatus.result := AgentTask.result task;
    |}
  end.

(** [task.project_id == project_id], or no filter at all *)
Definition in_project (project_id : option Z) (task : AgentTask.t) : Prop :=
  project_id = None ∨ project_id = Some (AgentTask.project_id task).

Global Instance in_project_dec project_id task : Decision (in_project project_id task).
Proof. unfold in_project. apply _. Defined.

(** [get_all_tasks]: one element per task of [self.tasks.values()] that
    passes the filter, each the answer of [get_task_status] for the id that
    the task carries.  The store being a finite map, the tasks are listed
    in the order of [map_to_list], not in their insertion order. *)
Definition get_all_tasks (m : t Agent) (project_id : option Z)
    : list (option TaskStatus.t) :=
  (λ task, get_task_status m (AgentTask.id task))
    <$> filter (in_project project_id) (snd <$> map_to_list (tasks m)).
End Methods.
End AgentManager.

(** ** The agent classes of [backend/app/services/agents/]

    A constructor takes the list of its positional arguments, so that a call
    with the wrong number of them raises [TypeError] as in Python. *)

Definition arity_error (cls : string) (takes given : string) : exn :=
  mkExn TypeError
    [Lit cls; Lit ".__init__() takes "; Lit takes; Lit " but "; Lit given; Lit " given"].

Definition no_attribute (cls attr : string) : exn :=
  mkExn AttributeError
    [Lit "'"; Lit cls; Lit "' object has no attribute '"; Lit attr; Lit "'"].

Module RequirementsAgent.

(** A [genai.GenerativeModel], known by its model name. *)
Record GenerativeModel : Type := genai_GenerativeModel { model_name : string }.

Record t : Type := mk {
  mcp_manager : MCPRef;
  gemini_model : option GenerativeModel;
  is_initialized : bool;
}.

(** The pydantic model [Requirement].  The type of [confidence], a Python
    float, is left open. *)
Record Requirement (float : Type) : Type := mkRequirement {
  id : string;
  title : string;
  description : string;
  category : string;
  priority : string;
  source : string;
  confidence : float;
  extracted_at : datetime;
  metadata : gmap string pyval;
}.
Arguments mkRequirement {float} _ _ _ _ _ _ _ _ _.
Arguments id {float} _.
Arguments title {float} _.
Arguments description {float} _.
Arguments category {float} _.
Arguments priority {float} _.
Arguments source {float} _.
Arguments confidence {float} _.
Arguments extracted_at {float} _.
Arguments metadata {float} _.

(** [_categorize_requirements]: the loop
    [categories[req.category] = categories.get(req.category, 0) + 1]. *)
Definition _categorize_requirements {float} (requirements : list (Requirement float))
    : gmap string Z :=
  foldl (λ categories req,
           <[category req := default 0 (categories !! category req) + 1]> categories)
        ∅ requirements.

(** The generative-model library, and the three private handlers of the
    class.  The handlers' bodies (prompts sent to the model, reports built
    from its answers) are not part of the orchestration layer; they are
    taken as given, as actions on the outside world. *)
Class Handlers (Env : Type) : Type := {
  (** [genai.configure(api_key=key)] followed by [genai.GenerativeModel(name)] *)
  genai_configure_and_load : string → string → Ext Env GenerativeModel;
  _extract_requirements : t → pyval → Ext Env pyval;
  _validate_requirements : t → pyval → Ext Env pyval;
  _prioritize_requirements : t → pyval → Ext Env pyval;
}.

Definition __init__ (args : list MCPRef) : outcome t :=
  match args with
  | [mcp_manager] => Ok (mk mcp_manager None false)
  | [] => Raise (mkExn TypeError
            [Lit "RequirementsAgent.__init__() missing 1 required positional argument: 'mcp_manager'"])
  | _ => Raise (arity_error "RequirementsAgent" "2 positional arguments" "more were")
  end.

Section Methods.
Context {Env : Type} `{!Runtime Env} `{!Handlers Env}.

Definition initialize (self : t) : Ext Env t := λ env,
  if is_initialized self then (Ok self, env)
  else
    match GEMINI_API_KEY settings with
    | Some key =>
        if String.eqb key "" then (Ok (mk (mcp_manager self) (gemini_model self) true), env)
        else
          match genai_configure_and_load key "gemini-2.0-flash-exp" env with
          | (Ok model, env') => (Ok (mk (mcp_manager self) (Some model) true), env')
          | (Raise e, env') => (Raise e, env')
          end
    | None => (Ok (mk (mcp_manager self) (gemini_model self) true), env)
    end.

Definition cleanup (self : t) : Ext Env t := λ env,
  (Ok (mk (mcp_manager self) (gemini_model self) false), env).

Definition execute_task (self : t) (task_data : pyval) : Ext Env pyval := λ env,
  if negb (is_initialized self) then
    (Raise (mkExn RuntimeError [Lit "Requirements Agent not initialized"]), env)
  else
    match py_get task_data "analysis_type" (VStr "requirements_extraction") with
    | Raise e => (Raise e, env)
    | Ok task_type =>
        if py_eq_str task_type "requirements_extraction" then
          _extract_requirements self task_data env
        else if py_eq_str task_type "requirements_validation" then
          _validate_requirements self task_data env
        else if py_eq_str task_type "requirements_prioritization" then
          _prioritize_requirements self task_data env
        else
          (Raise (mkExn ValueError [Lit "Unknown task type: "; FmtVal task_type]), env)
    end.
End Methods.
End RequirementsAgent.

Module PlanningAgent.
Record t : Type := mk {
  name : string;
  description : string;
  is_initialized : bool;
}.

(** [def __init__(self)]: no parameter besides [self]. *)
Definition __init__ (args : list MCPRef) : outcome t :=
  match args with
  | [] => Ok (mk "Planning Agent" "Creates epics and user stories based on requirements" false)
  | [_] => Raise (arity_error "PlanningAgent" "1 positional argument" "2 were")
  | _ => Raise (arity_error "PlanningAgent" "1 positional argument" "more were")
  end.

Definition initialize (self : t) : t := mk (name self) (description self) true.
Definition cleanup (self : t) : t := self.
End PlanningAgent.

Module DevelopmentAgent.
Record t : Type := mk {
  name : string;
  description : string;
  is_initialized : bool;
  mcp_manager : option MCPRef;
}.

(** [def __init__(self, mcp_manager=None)] *)
Definition __init__ (args : list MCPRef) : outcome t :=
  match args with
  | [] => Ok (mk "Development Agent" "Manages code and deployment" false None)
  | [m] => Ok (mk "Development Agent" "Manages code and deployment" false (Some m))
  | _ => Raise (arity_error "DevelopmentAgent" "from 1 to 2 positional arguments" "more were")
  end.

Definition initialize (self : t) : t :=
  mk (name self) (description self) true (mcp_manager self).
Definition cleanup (self : t) : t := self.
End DevelopmentAgent.

Module TestingAgent.
Record t : Type := mk {
  name : string;
  description : string;
  is_initialized : bool;
  mcp_manager : option MCPRef;
}.

Definition __init__ (args : list MCPRef) : outcome t :=
  match args with
  | [] => Ok (mk "Testing Agent" "Handles testing and quality assurance" false None)
  | [m] => Ok (mk "Testing Agent" "Handles testing and quality assurance" false (Some m))
  | _ => Raise (arity_error "TestingAgent" "from 1 to 2 positional arguments" "more were")
  end.

Definition initialize (self : t) : t :=
  mk (name self) (description self) true (mcp_manager self).
Definition cleanup (self : t) : t := self.
End TestingAgent.

Module CommunicationAgent.
Record t : Type := mk {
  name : string;
  description : string;
  is_initialized : bool;
  mcp_manager : option MCPRef;
}.

Definition __init__ (args : list MCPRef) : outcome t :=
  match args with
  | [] => Ok (mk "Communication Agent" "Handles communications with external systems"
                false None)
  | [m] => Ok (mk "Communication Agent" "Handles communications with external systems"
                 false (Some m))
  | _ => Raise (arity_error "CommunicationAgent" "from 1 to 2 positional arguments" "more were")
  end.

Definition initialize (self : t) : t :=
  mk (name self) (description self) true (mcp_manager self).
Definition cleanup (self : t) : t := self.
End CommunicationAgent.

(** *** The objects of [self.agents] when the classes are the repository's *)
Module Repo.

Inductive Agent : Type :=
| Requirements (a : RequirementsAgent.t)
| Planning (a : PlanningAgent.t)
| Development (a : DevelopmentAgent.t)
| Testing (a : TestingAgent.t)
| Communication (a : CommunicationAgent.t).

Definition class_name (a : Agent) : string :=
  match a with
  | Requirements _ => "RequirementsAgent"
  | Planning _ => "PlanningAgent"
  | Development _ => "DevelopmentAgent"
  | Testing _ => "TestingAgent"
  | Communication _ => "CommunicationAgent"
  end.

Definition lift {A B} (inj : A → B) (r : outcome A) : outcome B :=
  match r with
  | Ok a => Ok (inj a)
  | Raise e => Raise e
  end.

Section Classes.
Context {Env : Type} `{!Runtime Env} `{!RequirementsAgent.Handlers Env}.

(** The constructor calls of [AgentManager.initialize]: every class is
    called with [self.mcp_manager] as its only argument. *)
Definition new (agent_type : AgentType) (mcp : MCPRef) : Ext Env Agent := λ env,
  (match agent_type with
   | REQUIREMENTS => lift Requirements (RequirementsAgent.__init__ [mcp])
   | PLANNING => lift Planning (PlanningAgent.__init__ [mcp])
   | DEVELOPMENT => lift Development (DevelopmentAgent.__init__ [mcp])
   | TESTING => lift Testing (TestingAgent.__init__ [mcp])
   | COMMUNICATION => lift Communication (CommunicationAgent.__init__ [mcp])
   end, env).

Definition initialize (agent : Agent) : Ext Env Agent := λ env,
  match agent with
  | Requirements a =>
      let '(r, env') := RequirementsAgent.initialize a env in (lift Requirements r, env')
  | Planning a => (Ok (Planning (PlanningAgent.initialize a)), env)
  | Development a => (Ok (Development (DevelopmentAgent.initialize a)), env)
  | Testing a => (Ok (Testing (TestingAgent.initialize a)), env)
  | Communication a => (Ok (Communication (CommunicationAgent.initialize a)), env)
  end.

Definition cleanup (agent : Agent) : Ext Env Agent := λ env,
  match agent with
  | Requirements a =>
      let '(r, env') := RequirementsAgent.cleanup a env in (lift Requirements r, env')
  | Planning a => (Ok (Planning (PlanningAgent.cleanup a)), env)
  | Development a => (Ok (Development (DevelopmentAgent.cleanup a)), env)
  | Testing a => (Ok (Testing (TestingAgent.cleanup a)), env)
  | Communication a => (Ok (Communication (CommunicationAgent.cleanup a)), env)
  end.

(** [agent.execute_task(task_data)]: of the five classes only
    [RequirementsAgent] defines the method; on an object of another class
    the attribute lookup raises. *)
Definition execute_task (agent : Agent) (task_data : pyval) : Ext Env pyval := λ env,
  match agent with
  | Requirements a => RequirementsAgent.execute_task a task_data env
  | _ => (Raise (no_attribute (class_name agent) "execute_task"), env)
  end.

Global Instance classes : AgentClasses Env Agent := {|
  agent_new := new;
  agent_initialize := initialize;
  agent_cleanup := cleanup;
  agent_execute_task := execute_task;
|}.
End Classes.
End Repo.

(** ** The errors of the specification, as the exceptions the code raises *)

Definition TaskNotFound (task_id : string) : exn :=
  mkExn ValueError [Lit "Task "; Lit task_id; Lit " not found"].

Definition AgentUnavailable (agent_type : AgentType) : exn :=
  mkExn ValueError [Lit "Agent type "; FmtAgentType agent_type; Lit " not found"].

Definition UnknownTaskVariant (task_type : pyval) : exn :=
  mkExn ValueError [Lit "Unknown task type: "; FmtVal task_type].

Definition NotInitialized : exn :=
  mkExn RuntimeError [Lit "Requirements Agent not initialized"].

Definition ServiceUnknown (service : string) : exn :=
  mkExn ValueError [Lit "Service "; Lit service; Lit " not available"].

Definition ServiceUnavailable (service : string) : exn :=
  mkExn ConnectionError [Lit "Service "; Lit service; Lit " not connected"].

(** The five stage keys of a workflow, in the order of the five blocks of
    [execute_workflow]; each is the value of the agent type it runs. *)
Definition stage_order : list AgentType :=
  [REQUIREMENTS; PLANNING; DEVELOPMENT; TESTING; COMMUNICATION].

(** The stages that a workflow specification contains, in that order. *)
Definition present_stages (workflow_data : gmap string pyval) : list AgentType :=
  filter (λ t, is_Some (workflow_data !! AgentType_value t)) stage_order.

(** The records that one stage of a workflow logs when its task succeeds,
    and when the agent raises. *)
Definition stage_records (agent_type : AgentType) (task_id : string) : list LogRecord :=
  [LogTaskCreated task_id agent_type; LogTaskExecuting task_id agent_type;
   LogTaskCompleted task_id].

Definition failed_stage_records (agent_type : AgentType) (task_id : string) (e : exn)
    : list LogRecord :=
  [LogTaskCreated task_id agent_type; LogTaskExecuting task_id agent_type;
   LogTaskFailed task_id e].

(** The three values of [analysis_type] that [RequirementsAgent.execute_task]
    tests for. *)
Definition known_analysis_type (v : pyval) : bool :=
  py_eq_str v "requirements_extraction"
  || py_eq_str v "requirements_validation"
  || py_eq_str v "requirements_prioritization".

(** The records that [MCPManager.initialize] logs. *)
Definition is_registry_record (r : LogRecord) : Prop :=
  match r with
  | LogMcpInitializing | LogMcpInitialized
  | LogMcpConnected _ | LogMcpConnectionFailed _ | LogMcpConnectionError _ _ => True
  | _ => False
  end.

(** Every entry of [connections] is for a configured service. *)
Definition connections_configured (m : MCPManager.t) : Prop :=
  ∀ service, is_Some (MCPManager.connections m !! service) →
             is_Some (odict.get (MCPManager.endpoints m) service).

(** ** Vocabulary for the tasks of the manager *)
Section Vocabulary.
Context {Env Agent : Type} `{!Runtime Env}.

(** The id that [create_task] builds from the clock reading [now]. *)
Definition task_id_at (agent_type : AgentType) (project_id : Z) (now : datetime) : string :=
  AgentType_value agent_type +:+ "_" +:+ pretty project_id +:+ "_" +:+ timestamp_text now.

(** The task object that [create_task] stores. *)
Definition pending_task (task_id : string) (agent_type : AgentType) (project_id : Z)
    (task_data : pyval) (priority : string) (now : datetime) : AgentTask.t :=
  AgentTask.mk task_id agent_type project_id task_data priority "pending"
    (Some now) None VNone None.

(** The task object after a run in which the agent returned [r]. *)
Definition completed_task (task : AgentTask.t) (r : pyval) (now : datetime) : AgentTask.t :=
  AgentTask.set_result r
    (AgentTask.set_completed_at (Some now)
      (AgentTask.set_status "completed" (AgentTask.set_status "running" task))).

(** The task object after a run in which the agent raised [e]. *)
Definition failed_task (task : AgentTask.t) (e : exn) : AgentTask.t :=
  AgentTask.set_error (Some (str_exn e))
    (AgentTask.set_status "failed" (AgentTask.set_status "running" task)).

Definition store (s : Sys Env (AgentManager.t Agent)) : gmap string AgentTask.t :=
  AgentManager.tasks (self s).

Definition with_tasks (tasks : gmap string AgentTask.t) (m : AgentManager.t Agent)
    : AgentManager.t Agent :=
  AgentManager.mk (AgentManager.agents m) tasks (AgentManager.mcp_manager m)
    (AgentManager.is_initialized m).

(** The state in which [execute_workflow] enters its first block. *)
Definition started (project_id : Z) (s : Sys Env (AgentManager.t Agent))
    : Sys Env (AgentManager.t Agent) :=
  mkSys (sys_env s) (sys_log s ++ [LogWorkflowStarting project_id]) (self s).

Definition finished (project_id : Z) (s : Sys Env (AgentManager.t Agent))
    : Sys Env (AgentManager.t Agent) :=
  mkSys (sys_env s) (sys_log s ++ [LogWorkflowCompleted project_id]) (self s).

(** The blocks of [execute_workflow] for a list of stages, one after the
    other. *)
Fixpoint run_stages `{!AgentClasses Env Agent} (stages : list AgentType) (project_id : Z)
    (workflow_data workflow_results : gmap string pyval)
    : M (Sys Env (AgentManager.t Agent)) (gmap string pyval) :=
  match stages with
  | [] => mret workflow_results
  | t :: stages' =>
      workflow_results ←
        AgentManager.workflow_stage (AgentType_value t) t project_id workflow_data
          workflow_results;
      run_stages stages' project_id workflow_data workflow_results
  end.

(** The task [task_id] of the stage [t] is completed, and its result is
    in the results of the workflow under the key of the stage. *)
Definition stage_completed (tasks : gmap string AgentTask.t)
    (workflow_results : gmap string pyval) (t : AgentType) (task_id : string) : Prop :=
  ∃ task, tasks !! task_id = Some task
          ∧ AgentTask.agent_type task = t
          ∧ AgentTask.status task = "completed"
          ∧ workflow_results !! AgentType_value t = Some (AgentTask.result task).

(** Creating a task and executing it at once, as the convenience methods
    of the manager do. *)
Definition create_and_execute `{!AgentClasses Env Agent} (agent_type : AgentType)
    (project_id : Z) (task_data : pyval) : M (Sys Env (AgentManager.t Agent)) pyval :=
  task_id ← AgentManager.create_task agent_type project_id task_data "medium";
  AgentManager.execute_task task_id.

(** What a step of the manager leaves alone. *)
Definition keeps_manager (s s' : Sys Env (AgentManager.t Agent)) : Prop :=
  store s' = store s
  ∧ AgentManager.is_initialized (self s') = AgentManager.is_initialized (self s)
  ∧ AgentManager.mcp_manager (self s') = AgentManager.mcp_manager (self s).

(** The stages of a list that a workflow specification contains. *)
Definition present_of (workflow_data : gmap string pyval) (stages : list AgentType)
    : list AgentType :=
  filter (λ t, is_Some (workflow_data !! AgentType_value t)) stages.

(** A run of workflow stages in which every agent returns.  For each stage
    in turn the clock is read twice for the creation of the task, the agent
    registered for the stage is called with the payload of the stage, and
    the clock is read once more when it has returned; each step starts in
    the world that the step before has left.  The tasks are listed as the
    run leaves them, in the order of the stages. *)
Inductive stages_ran `{!AgentClasses Env Agent} (agents : odict.t AgentType Agent)
    (project_id : Z) (workflow_data : gmap string pyval)
    : list AgentType → Env → list AgentTask.t → Env → Prop :=
| stages_ran_nil env :
    stages_ran agents project_id workflow_data [] env [] env
| stages_ran_cons t stages env stage_data agent t0 env0 t1 env1 r env2 now env3 tasks env' :
    workflow_data !! AgentType_value t = Some stage_data →
    odict.get agents t = Some agent →
    datetime_now env = (t0, env0) →
    datetime_now env0 = (t1, env1) →
    agent_execute_task agent stage_data env1 = (Ok r, env2) →
    datetime_now env2 = (now, env3) →
    stages_ran agents project_id workflow_data stages env3 tasks env' →
    stages_ran agents project_id workflow_data (t :: stages) env
      (completed_task
         (pending_task (task_id_at t project_id t0) t project_id stage_data "medium" t1)
         r now :: tasks)
      env'.

(** The constructions of [initialize] that return: [Class(self.mcp_manager)]
    for each agent type of a list in turn, each in the world that the one
    before has left. *)
Inductive constructed `{!AgentClasses Env Agent}
    : list AgentType → Env → odict.t AgentType Agent → Env → Prop :=
| constructed_nil env : constructed [] env [] env
| constructed_cons t types env agent env1 agents env' :
    agent_new t mcp_manager_ref env = (Ok agent, env1) →
    constructed types env1 agents env' →
    constructed (t :: types) env ((t, agent) :: agents) env'.

(** The [await agent.initialize()] calls that return, for the agents of a
    dictionary in turn. *)
Inductive initialized `{!AgentClasses Env Agent}
    : odict.t AgentType Agent → Env → odict.t AgentType Agent → Env → Prop :=
| initialized_nil env : initialized [] env [] env
| initialized_cons t agent agents env agent' env1 agents' env' :
    agent_initialize agent env = (Ok agent', env1) →
    initialized agents env1 agents' env' →
    initialized ((t, agent) :: agents) env ((t, agent') :: agents') env'.
End Vocabulary.

Section RequirementsVocabulary.
Context {Env : Type} `{!RequirementsAgent.Handlers Env}.
Implicit Types (a : RequirementsAgent.t) (d : gmap string pyval) (env : Env).

(** The handlers that [execute_task] can pass the payload to. *)
Definition handler_run a d env (r : outcome pyval * Env) : Prop :=
  r = RequirementsAgent._extract_requirements a (VDict d) env
  ∨ r = RequirementsAgent._validate_requirements a (VDict d) env
  ∨ r = RequirementsAgent._prioritize_requirements a (VDict d) env.

End RequirementsVocabulary.

(** Every task is stored under the id that it carries. *)
Definition ids_consistent (tasks : gmap string AgentTask.t) : Prop :=
  ∀ task_id task, tasks !! task_id = Some task → AgentTask.id task = task_id.

(** What [execute_task] never writes: the fields of a task that are set at
    its creation. *)
Definition same_creation (task task' : AgentTask.t) : Prop :=
  AgentTask.id task' = AgentTask.id task
  ∧ AgentTask.agent_type task' = AgentTask.agent_type task
  ∧ AgentTask.project_id task' = AgentTask.project_id task
  ∧ AgentTask.task_data task' = AgentTask.task_data task
  ∧ AgentTask.priority task' = AgentTask.priority task
  ∧ AgentTask.created_at task' = AgentTask.created_at task.

(** The status view of a task. *)
Definition view_of `{!Runtime Env} (task : AgentTask.t) : TaskStatus.t := {|
  TaskStatus.id := AgentTask.id task;
  TaskStatus.agent_type := AgentType_value (AgentTask.agent_type task);
  TaskStatus.status := AgentTask.status task;
  TaskStatus.created_at := isoformat <$> AgentTask.created_at task;
  TaskStatus.completed_at := isoformat <$> AgentTask.completed_at task;
  TaskStatus.error := AgentTask.error task;
  TaskStatus.result := AgentTask.result task;
|}.

(** A connection as a probe records it. *)
Definition probed (conn : MCPManager.Connection) : Prop :=
  MCPManager.status conn = "connected" ∨ MCPManager.status conn = "error".

(** The payloads that the convenience methods of the manager build. *)
Definition conversations_payload (project_id : Z) (conversations : list pyval) : pyval :=
  VDict {[
    "conversations" := VList conversations;
    "project_id" := VInt project_id;
    "analysis_type" := VStr "requirements_extraction"
  ]}.

(** The error of [task_data.get] on a payload that is not a dictionary. *)
Definition no_get (payload : pyval) : exn :=
  mkExn AttributeError
    [Lit "'"; Lit (py_type_name payload); Lit "' object has no attribute 'get'"].

(** The number of requirements of a category. *)
Definition count_category {float} (c : string)
    (requirements : list (RequirementsAgent.Requirement float)) : Z :=
  Z.of_nat (length (filter (λ req, RequirementsAgent.category req = c) requirements)).

(** The sum of the values of a dictionary of counts, [sum(d.values())]. *)
Definition sum_values (categories : gmap string Z) : Z :=
  map_fold (λ _ n acc, n + acc) 0 categories.

(** The state a method leaves, and what it returns. *)
Definition run {S A} (m : M S A) (s : S) : S := snd (m s).
Definition returned {S A} (m : M S A) (s : S) : outcome A := fst (m s).

(** ** A small world to run the code in

    The clock returns the scripted readings one after the other (and 0 once
    they are used up), and a reading is written as its count of
    microseconds; no MCP server is listening; the generative model and the
    handlers of the requirements agent answer with fixed values. *)
Module Demo.

Definition World : Type := list datetime.

Definition now (w : World) : datetime * World :=
  match w with
  | [] => (0, [])
  | d :: w' => (d, w')
  end.

Definition refused : exn := mkExn Exception [Lit "Cannot connect to host"].

Global Instance runtime : Runtime World := {|
  settings := default_settings;
  datetime_now := now;
  timestamp_text := pretty;
  isoformat := pretty;
  session_get := λ _ w, (Raise refused, w);
  session_post := λ _ _ w, (Raise refused, w);
|}.

Definition no_requirements : pyval :=
  VDict {[ "requirements" := VList []; "summary" := VStr "none" ]}.

Global Instance handlers : RequirementsAgent.Handlers World := {|
  RequirementsAgent.genai_configure_and_load := λ _ name w,
    (Ok (RequirementsAgent.genai_GenerativeModel name), w);
  RequirementsAgent._extract_requirements := λ _ _ w, (Ok no_requirements, w);
  RequirementsAgent._validate_requirements := λ _ _ w, (Ok (VDict ∅), w);
  RequirementsAgent._prioritize_requirements := λ _ task_data w, (Ok task_data, w);
|}.

(** Test doubles: an agent is the function that its [execute_task] computes. *)
Module Stub.
Definition Agent : Type := pyval → outcome pyval.

Definition echo : Agent := λ task_data, Ok task_data.
Definition failing (e : exn) : Agent := λ _, Raise e.

Global Instance classes : AgentClasses World Agent := {|
  agent_new := λ _ _ w, (Ok echo, w);
  agent_initialize := λ a w, (Ok a, w);
  agent_cleanup := λ a w, (Ok a, w);
  agent_execute_task := λ a task_data w, (a task_data, w);
|}.
End Stub.

(** A manager that has just been constructed, in a world with the given
    clock readings. *)
Definition fresh {Agent} (w : World) : Sys World (AgentManager.t Agent) :=
  mkSys w [] AgentManager.__init__.

(** A requirements agent after [initialize], and a planning agent as
    [PlanningAgent()] builds it. *)
Definition requirements_agent : Repo.Agent :=
  Repo.Requirements (RequirementsAgent.mk mcp_manager_ref None true).
Definition planning_agent : Repo.Agent :=
  Repo.Planning (PlanningAgent.mk "Planning Agent"
    "Creates epics and user stories based on requirements" false).
End Demo.

(** ** A world with servers

    The clock advances by one microsecond at each reading.  The servers at
    the endpoints of [listening] answer: 200 to a health request, and 200
    with the posted data as the body to a [/send] request.  A health
    request to another endpoint is refused; a [/send] request to another
    endpoint is answered 503. *)
Module Online.

Record World : Type := mkWorld {
  clock : datetime;
  listening : list string;
}.

Definition now (w : World) : datetime * World :=
  (clock w, mkWorld (clock w + 1) (listening w)).

Definition refused : exn := mkExn Exception [Lit "Cannot connect to host"].

Definition answers (path url : string) (w : World) : bool :=
  bool_decide (url ∈ (λ endpoint, endpoint +:+ path) <$> listening w).

Definition get (url : string) : Ext World (HttpResponse World) := λ w,
  if answers "/health" url w then
    (Ok (mkResponse 200 (λ w, (Ok (VDict ∅), w)) (λ w, (Ok "", w))), w)
  else (Raise refused, w).

Definition post (url : string) (data : pyval) : Ext World (HttpResponse World) := λ w,
  if answers "/send" url w then
    (Ok (mkResponse 200 (λ w, (Ok data, w)) (λ w, (Ok "", w))), w)
  else
    (Ok (mkResponse 503 (λ w, (Ok VNone, w)) (λ w, (Ok "no server", w))), w).

Global Instance runtime : Runtime World := {|
  settings := default_settings;
  datetime_now := now;
  timestamp_text := pretty;
  isoformat := pretty;
  session_get := get;
  session_post := post;
|}.

(** A registry initialized while only the Notion server listens. *)
Definition notion_up : Sys World MCPManager.t :=
  run MCPManager.initialize
    (mkSys (mkWorld 100 ["http://localhost:8004"]) [] MCPManager.__init__).
End Online.

(** ** Runs in the small world *)
Module Scenario.
Import Demo.

Definition payload : pyval := VDict {[ "conversations" := VList [] ]}.

(** *** A task that is executed twice

    A manager with an initialized requirements agent; a task is created
    and executed; the manager is cleaned up; the task is executed again. *)
Definition one_agent : Sys World (AgentManager.t Repo.Agent) :=
  mkSys [10; 11; 12; 13; 14; 15] []
    (AgentManager.mk [(REQUIREMENTS, requirements_agent)] ∅ None true).

Definition task_id : string := "requirements_42_10".

Definition created : Sys World (AgentManager.t Repo.Agent) :=
  run (AgentManager.create_task REQUIREMENTS 42 payload "medium") one_agent.
Definition completed : Sys World (AgentManager.t Repo.Agent) :=
  run (AgentManager.execute_task task_id) created.
Definition completed_twice : Sys World (AgentManager.t Repo.Agent) :=
  run (AgentManager.execute_task task_id) completed.
Definition cleaned : Sys World (AgentManager.t Repo.Agent) :=
  run AgentManager.cleanup completed.
Definition failed_after : Sys World (AgentManager.t Repo.Agent) :=
  run (AgentManager.execute_task task_id) cleaned.

(** *** Two tasks created within one clock tick *)
Definition tick : datetime := 1700000000000000.

Definition same_tick : Sys World (AgentManager.t Repo.Agent) :=
  fresh [tick; tick; tick; tick].

Definition other_payload : pyval := VDict {[ "conversations" := VList [VStr "hello"] ]}.

Definition first_created : Sys World (AgentManager.t Repo.Agent) :=
  run (AgentManager.create_task REQUIREMENTS 42 payload "medium") same_tick.
Definition second_created : Sys World (AgentManager.t Repo.Agent) :=
  run (AgentManager.create_task REQUIREMENTS 42 other_payload "high") first_created.

(** *** A planning agent that is asked to execute *)
Definition planning_only : Sys World (AgentManager.t Repo.Agent) :=
  mkSys [20; 21] [] (AgentManager.mk [(PLANNING, planning_agent)] ∅ None true).

Definition no_such_type : pyval := VDict {[ "planning_type" := VStr "no_such_type" ]}.

(** *** Workflows *)
Definition three_stages : gmap string pyval :=
  {[ "requirements" := payload; "planning" := VDict ∅; "testing" := VDict ∅ ]}.

Definition two_agents : Sys World (AgentManager.t Repo.Agent) :=
  mkSys [30; 31; 32; 33; 34; 35] []
    (AgentManager.mk [(REQUIREMENTS, requirements_agent); (PLANNING, planning_agent)]
       ∅ None true).

Definition two_stages : gmap string pyval :=
  {[ "requirements" := VStr "X"; "testing" := VStr "Y" ]}.

Definition doubles : Sys World (AgentManager.t Stub.Agent) :=
  mkSys [40; 41; 42; 43; 44; 45] []
    (AgentManager.mk [(REQUIREMENTS, Stub.echo); (TESTING, Stub.echo)] ∅ None true).

(** *** A workflow in which the agent of one stage raises

    Test doubles are registered for the three stages of [three_stages];
    the double of one stage raises [boom], the others return their
    payload. *)
Definition boom : exn := mkExn RuntimeError [Lit "boom"].

Definition planning_fails : Sys World (AgentManager.t Stub.Agent) :=
  mkSys [60; 61; 62; 63; 64; 65; 66; 67; 68] []
    (AgentManager.mk
       [(REQUIREMENTS, Stub.echo); (PLANNING, Stub.failing boom); (TESTING, Stub.echo)]
       ∅ None true).

Definition testing_fails : Sys World (AgentManager.t Stub.Agent) :=
  mkSys [60; 61; 62; 63; 64; 65; 66; 67; 68] []
    (AgentManager.mk
       [(REQUIREMENTS, Stub.echo); (PLANNING, Stub.echo); (TESTING, Stub.failing boom)]
       ∅ None true).

(** *** A registry with no server listening *)
Definition offline : Sys World MCPManager.t :=
  run MCPManager.initialize (mkSys [] [] MCPManager.__init__).

(** *** Startup with the classes of the repository *)
Definition startup : outcome unit * Sys World (AgentManager.t Repo.Agent) :=
  AgentManager.initialize (fresh []).
End Scenario.

(** ** More runs *)
Module Tour.

(** The registry of [Online.notion_up] once the Notion server has
    stopped listening. *)
Definition notion_down : Sys Online.World MCPManager.t :=
  mkSys (Online.mkWorld 200 []) [] (self Online.notion_up).

(** The connection that the probe of the Notion server recorded: it was
    the fourth probe, at the fourth reading of the clock. *)
Definition notion_connection : MCPManager.Connection :=
  MCPManager.mkConnection "http://localhost:8004" "connected" 103 None.

(** The answer of a server that does not listen. *)
Definition no_server : HttpResponse Online.World :=
  mkResponse 503 (λ w, (Ok VNone, w)) (λ w, (Ok "no server", w)).

(** A manager that has just been constructed, with the test doubles as
    its agent classes. *)
Definition new_with_doubles : Sys Demo.World (AgentManager.t Demo.Stub.Agent) :=
  Demo.fresh [].

(** A manager that has just been constructed, with the classes of the
    repository. *)
Definition new_manager : Sys Demo.World (AgentManager.t Repo.Agent) :=
  Demo.fresh [50; 51; 52; 53].
End Tour.

(** * Properties *)

(** ** Running a task *)
Section ManagerFacts.
Context {Env Agent : Type} `{!Runtime Env} `{!AgentClasses Env Agent}.

Abbreviation state := (Sys Env (AgentManager.t Agent)).
Implicit Types (s : state) (task : AgentTask.t) (task_id : string).

Lemma alter_present (f : AgentTask.t → AgentTask.t) (k : string)
    (m : gmap string AgentTask.t) (x : AgentTask.t) :
  m !! k = Some x → alter f k m = <[k := f x]> m.
Proof.
  intros Hk. apply map_eq. intros j.
  destruct (decide (k = j)) as [<-|Hne].
  - rewrite lookup_alter_eq, lookup_insert_eq, Hk. reflexivity.
  - rewrite lookup_alter_ne, lookup_insert_ne by assumption. reflexivity.
Qed.

Lemma create_task_run (s : state) agent_type project_id task_data priority :
  AgentManager.create_task agent_type project_id task_data priority s =
    let '(t0, env0) := datetime_now (sys_env s) in
    let '(t1, env1) := datetime_now env0 in
    let task_id := task_id_at agent_type project_id t0 in
    (Ok task_id,
     mkSys env1 (sys_log s ++ [LogTaskCreated task_id agent_type])
       (with_tasks
          (<[task_id := pending_task task_id agent_type project_id task_data priority t1]>
             (store s))
          (self s))).
Proof.
  unfold AgentManager.create_task, mbind, M_bind, ext_total, modify_self, logger, mret, M_ret.
  cbn. destruct (datetime_now (sys_env s)) as [t0 env0]. cbn.
  destruct (datetime_now env0) as [t1 env1]. cbn. reflexivity.
Qed.

(** The id of a new task is made of the agent type, the project and the
    reading of the clock, and of nothing else. *)
Lemma create_task_returns_id_at (s : state) agent_type project_id task_data priority :
  returned (AgentManager.create_task agent_type project_id task_data priority) s
    = Ok (task_id_at agent_type project_id (fst (datetime_now (sys_env s)))).
Proof.
  unfold returned. rewrite create_task_run.
  destruct (datetime_now (sys_env s)) as [t0 env0].
  destruct (datetime_now env0) as [t1 env1]. reflexivity.
Qed.

Lemma execute_task_no_task (s : state) task_id :
  store s !! task_id = None →
  AgentManager.execute_task task_id s = (Raise (TaskNotFound task_id), s).
Proof.
  intros Hk. unfold AgentManager.execute_task, mbind, M_bind, get_self. cbn.
  unfold store in Hk. rewrite Hk. reflexivity.
Qed.

Lemma execute_task_no_agent (s : state) task_id task :
  store s !! task_id = Some task →
  odict.get (AgentManager.agents (self s)) (AgentTask.agent_type task) = None →
  AgentManager.execute_task task_id s =
    (Raise (AgentUnavailable (AgentTask.agent_type task)), s).
Proof.
  intros Hk Ha. unfold AgentManager.execute_task, mbind, M_bind, get_self. cbn.
  unfold store in Hk. rewrite Hk, Ha. reflexivity.
Qed.

Lemma execute_task_run (s : state) task_id task agent :
  store s !! task_id = Some task →
  odict.get (AgentManager.agents (self s)) (AgentTask.agent_type task) = Some agent →
  AgentManager.execute_task task_id s =
    match agent_execute_task agent (AgentTask.task_data task) (sys_env s) with
    | (Ok r, env1) =>
        let '(now, env2) := datetime_now env1 in
        (Ok r,
         mkSys env2
           (sys_log s ++ [LogTaskExecuting task_id (AgentTask.agent_type task);
                          LogTaskCompleted task_id])
           (with_tasks (<[task_id := completed_task task r now]> (store s)) (self s)))
    | (Raise e, env1) =>
        (Raise e,
         mkSys env1
           (sys_log s ++ [LogTaskExecuting task_id (AgentTask.agent_type task);
                          LogTaskFailed task_id e])
           (with_tasks (<[task_id := failed_task task e]> (store s)) (self s)))
    end.
Proof.
  intros Hk Ha. unfold AgentManager.execute_task, mbind, M_bind, get_self. cbn.
  unfold store in *. rewrite Hk, Ha.
  unfold try_except, AgentManager.mark_running, AgentManager.mark_completed,
    AgentManager.mark_failed, AgentManager.assign, mbind, M_bind, ext, ext_total,
    modify_self, logger, mret, M_ret, raise. cbn.
  destruct (agent_execute_task agent (AgentTask.task_data task) (sys_env s))
    as [[r|e] env1]; cbn.
  - destruct (datetime_now env1) as [now env2]; cbn.
    rewrite <- !app_assoc. cbn. f_equal. f_equal.
    unfold with_tasks, AgentManager.set_tasks; cbn. f_equal.
    rewrite (alter_present _ _ _ _ Hk).
    rewrite !(alter_present _ task_id _ _ (lookup_insert_eq _ _ _)).
    rewrite !insert_insert_eq. reflexivity.
  - rewrite <- !app_assoc. cbn. f_equal. f_equal.
    unfold with_tasks, AgentManager.set_tasks; cbn. f_equal.
    rewrite (alter_present _ _ _ _ Hk).
    rewrite !(alter_present _ task_id _ _ (lookup_insert_eq _ _ _)).
    rewrite !insert_insert_eq. reflexivity.
Qed.

(** C8.  [ExecuteTask] on an id that the task store does not hold fails
    with [TaskNotFound] and changes nothing: the whole state of the
    manager (tasks, agents, log, outside world) is the one before the
    call. *)
Theorem execute_task_unknown_id s task_id :
  store s !! task_id = None →
  AgentManager.execute_task task_id s = (Raise (TaskNotFound task_id), s)
  ∧ ∀ out s', AgentManager.execute_task task_id s = (out, s') → store s' = store s.
Proof.
  intros Hk. pose proof (execute_task_no_task s task_id Hk) as Hrun.
  split; [exact Hrun|]. intros out s' Heq. rewrite Hrun in Heq.
  injection Heq as _ <-. reflexivity.
Qed.

(** C6, as the code has it.  For an existing task whose agent is
    registered: when the agent returns [R], [ExecuteTask] returns [R] and
    the status view shows "completed", a completion time and the result
    [R]; when the agent raises [E], [ExecuteTask] raises [E] and the view
    shows "failed", the text of [E] as the error, and the result that the
    task had before the call (none for a task that never completed). *)
Theorem execute_task_then_status s task_id task agent out s' :
  store s !! task_id = Some task →
  odict.get (AgentManager.agents (self s)) (AgentTask.agent_type task) = Some agent →
  AgentManager.execute_task task_id s = (out, s') →
  ∃ view, AgentManager.get_task_status (self s') task_id = Some view ∧
    match agent_execute_task agent (AgentTask.task_data task) (sys_env s) with
    | (Ok R, _) =>
        out = Ok R ∧ TaskStatus.status view = "completed"
        ∧ is_Some (TaskStatus.completed_at view) ∧ TaskStatus.result view = R
    | (Raise E, _) =>
        out = Raise E ∧ TaskStatus.status view = "failed"
        ∧ TaskStatus.error view = Some (str_exn E)
        ∧ TaskStatus.result view = AgentTask.result task
        ∧ (AgentTask.result task = VNone → TaskStatus.result view = VNone)
    end.
Proof.
  intros Hk Ha Hrun. rewrite (execute_task_run s task_id task agent Hk Ha) in Hrun.
  destruct (agent_execute_task agent (AgentTask.task_data task) (sys_env s))
    as [[R|E] env1].
  - destruct (datetime_now env1) as [now env2]. injection Hrun as <- <-.
    unfold AgentManager.get_task_status; cbn. rewrite lookup_insert_eq.
    eexists; split; [reflexivity|]. cbn. repeat split; eauto.
  - injection Hrun as <- <-.
    unfold AgentManager.get_task_status; cbn. rewrite lookup_insert_eq.
    eexists; split; [reflexivity|]. cbn. repeat split; eauto.
Qed.

(** What the statements before the [await] of [execute_task] do: one log
    record, and the status of the task set to "running". *)
Lemma mark_running_run s task_id task :
  store s !! task_id = Some task →
  AgentManager.mark_running task_id task s =
    (Ok tt,
     mkSys (sys_env s)
       (sys_log s ++ [LogTaskExecuting task_id (AgentTask.agent_type task)])
       (with_tasks (<[task_id := AgentTask.set_status "running" task]> (store s))
          (self s))).
Proof.
  intros Hk. unfold AgentManager.mark_running, AgentManager.assign, mbind, M_bind,
    logger, modify_self. cbn.
  unfold with_tasks, AgentManager.set_tasks, store in *. cbn.
  by rewrite (alter_present _ _ _ _ Hk).
Qed.

End ManagerFacts.

(** ** Workflows *)
Section WorkflowFacts.
Context {Env Agent : Type} `{!Runtime Env} `{!AgentClasses Env Agent}.

Abbreviation wstate := (Sys Env (AgentManager.t Agent)).
Implicit Types (s : wstate) (workflow_data results : gmap string pyval).

Lemma workflow_stage_absent key t project_id workflow_data results s :
  workflow_data !! key = None →
  AgentManager.workflow_stage key t project_id workflow_data results s = (Ok results, s).
Proof. intros Hk. unfold AgentManager.workflow_stage. rewrite Hk. reflexivity. Qed.

(** What a block does when its stage is present: the task is created, and
    then the agent is missing, or returns, or raises. *)
Lemma workflow_stage_present key t project_id workflow_data results s stage_data :
  workflow_data !! key = Some stage_data →
  ∃ task_id task env',
    (∃ now, task_id = task_id_at t project_id now) ∧
    AgentTask.agent_type task = t ∧ AgentTask.status task = "pending" ∧
    ((odict.get (AgentManager.agents (self s)) t = None ∧
      AgentManager.workflow_stage key t project_id workflow_data results s =
        (Raise (AgentUnavailable t),
         mkSys env' (sys_log s ++ [LogTaskCreated task_id t])
           (with_tasks (<[task_id := task]> (store s)) (self s))))
     ∨ (∃ r now,
      AgentManager.workflow_stage key t project_id workflow_data results s =
        (Ok (<[key := r]> results),
         mkSys env' (sys_log s ++ stage_records t task_id)
           (with_tasks (<[task_id := completed_task task r now]> (store s)) (self s))))
     ∨ (∃ e,
      AgentManager.workflow_stage key t project_id workflow_data results s =
        (Raise e,
         mkSys env' (sys_log s ++ failed_stage_records t task_id e)
           (with_tasks (<[task_id := failed_task task e]> (store s)) (self s))))).
Proof.
  intros Hk.
  pose proof (create_task_run s t project_id stage_data "medium") as Hc.
  destruct (datetime_now (sys_env s)) as [t0 env0].
  destruct (datetime_now env0) as [t1 env1]. cbn zeta in Hc.
  set (task_id := task_id_at t project_id t0) in *.
  set (task := pending_task task_id t project_id stage_data "medium" t1) in *.
  set (s1 := mkSys env1 _ _) in Hc.
  assert (Hstage :
    AgentManager.workflow_stage key t project_id workflow_data results s =
      match AgentManager.execute_task task_id s1 with
      | (Ok r, s') => (Ok (<[key := r]> results), s')
      | (Raise e, s') => (Raise e, s')
      end).
  { unfold AgentManager.workflow_stage. rewrite Hk. unfold mbind, M_bind.
    rewrite Hc. reflexivity. }
  assert (Hs1 : store s1 !! task_id = Some task) by apply lookup_insert_eq.
  rewrite Hstage. clear Hstage Hc.
  destruct (odict.get (AgentManager.agents (self s)) t) as [agent|] eqn:Ha.
  - rewrite (execute_task_run s1 task_id task agent Hs1 Ha).
    destruct (agent_execute_task agent (AgentTask.task_data task) (sys_env s1))
      as [[r|e] env2].
    + destruct (datetime_now env2) as [now env3].
      exists task_id, task, env3. split; [by exists t0|].
      split; [reflexivity|]. split; [reflexivity|].
      right; left. exists r, now. cbn. unfold with_tasks, store. cbn.
      rewrite insert_insert_eq, <- app_assoc. reflexivity.
    + exists task_id, task, env2. split; [by exists t0|].
      split; [reflexivity|]. split; [reflexivity|].
      right; right. exists e. cbn. unfold with_tasks, store. cbn.
      rewrite insert_insert_eq, <- app_assoc. reflexivity.
  - rewrite (execute_task_no_agent s1 task_id task Hs1 Ha).
    exists task_id, task, env1. split; [by exists t0|].
    split; [reflexivity|]. split; [reflexivity|].
    left. split; reflexivity.
Qed.

(** A block whose stage is present, in full: the two clock readings of
    the creation, the call of the registered agent with the payload of the
    stage, and the clock reading of the completion. *)
Lemma workflow_stage_run key t project_id workflow_data results s stage_data :
  workflow_data !! key = Some stage_data →
  AgentManager.workflow_stage key t project_id workflow_data results s =
    let '(t0, env0) := datetime_now (sys_env s) in
    let '(t1, env1) := datetime_now env0 in
    let task_id := task_id_at t project_id t0 in
    let task := pending_task task_id t project_id stage_data "medium" t1 in
    match odict.get (AgentManager.agents (self s)) t with
    | None =>
        (Raise (AgentUnavailable t),
         mkSys env1 (sys_log s ++ [LogTaskCreated task_id t])
           (with_tasks (<[task_id := task]> (store s)) (self s)))
    | Some agent =>
        match agent_execute_task agent stage_data env1 with
        | (Ok r, env2) =>
            let '(now, env3) := datetime_now env2 in
            (Ok (<[key := r]> results),
             mkSys env3 (sys_log s ++ stage_records t task_id)
               (with_tasks (<[task_id := completed_task task r now]> (store s)) (self s)))
        | (Raise e, env2) =>
            (Raise e,
             mkSys env2 (sys_log s ++ failed_stage_records t task_id e)
               (with_tasks (<[task_id := failed_task task e]> (store s)) (self s)))
        end
    end.
Proof.
  intros Hk.
  pose proof (create_task_run s t project_id stage_data "medium") as Hc.
  destruct (datetime_now (sys_env s)) as [t0 env0].
  destruct (datetime_now env0) as [t1 env1]. cbn zeta in Hc. cbn zeta.
  set (task_id := task_id_at t project_id t0) in *.
  set (task := pending_task task_id t project_id stage_data "medium" t1) in *.
  set (s1 := mkSys env1 _ _) in Hc.
  assert (Hstage :
    AgentManager.workflow_stage key t project_id workflow_data results s =
      match AgentManager.execute_task task_id s1 with
      | (Ok r, s') => (Ok (<[key := r]> results), s')
      | (Raise e, s') => (Raise e, s')
      end).
  { unfold AgentManager.workflow_stage. rewrite Hk. unfold mbind, M_bind.
    rewrite Hc. reflexivity. }
  assert (Hs1 : store s1 !! task_id = Some task) by apply lookup_insert_eq.
  rewrite Hstage. clear Hstage Hc.
  destruct (odict.get (AgentManager.agents (self s)) t) as [agent|] eqn:Ha.
  - rewrite (execute_task_run s1 task_id task agent Hs1 Ha).
    change (AgentTask.task_data task) with stage_data.
    change (sys_env s1) with env1.
    destruct (agent_execute_task agent stage_data env1) as [[r|e] env2].
    + destruct (datetime_now env2) as [now env3].
      cbn. unfold with_tasks, store. cbn.
      rewrite insert_insert_eq, <- app_assoc. reflexivity.
    + cbn. unfold with_tasks, store. cbn.
      rewrite insert_insert_eq, <- app_assoc. reflexivity.
  - rewrite (execute_task_no_agent s1 task_id task Hs1 Ha). reflexivity.
Qed.

(** The five blocks of [execute_workflow] are [run_stages] on the five
    stages in their order. *)
Lemma execute_workflow_run_stages project_id workflow_data s :
  AgentManager.execute_workflow project_id workflow_data s =
    match run_stages stage_order project_id workflow_data ∅ (started project_id s) with
    | (Ok results, s') => (Ok results, finished project_id s')
    | (Raise e, s') => (Raise e, s')
    end.
Proof.
  unfold AgentManager.execute_workflow, stage_order, run_stages, mbind, M_bind, logger,
    started, finished, mret, M_ret. cbn.
  repeat lazymatch goal with
    | |- context [AgentManager.workflow_stage ?k ?t ?p ?w ?r ?s] =>
        destruct (AgentManager.workflow_stage k t p w r s) as [[?|?] ?]; cbn;
        try reflexivity
    end.
Qed.

Lemma AgentType_value_inj t1 t2 : AgentType_value t1 = AgentType_value t2 → t1 = t2.
Proof. destruct t1, t2; cbn; intros H; first [reflexivity | discriminate H]. Qed.

(** A task id begins with the value of its agent type. *)
Lemma task_id_at_type t1 p1 n1 t2 p2 n2 :
  task_id_at t1 p1 n1 = task_id_at t2 p2 n2 → t1 = t2.
Proof.
  unfold task_id_at. destruct t1, t2; cbn; intros H;
    first [reflexivity | discriminate H].
Qed.

(** The blocks of some stages leave alone the tasks and the results of
    the other stages. *)
Lemma run_stages_frame stages project_id workflow_data results s out s' :
  run_stages stages project_id workflow_data results s = (out, s') →
  (∀ t0 p n, t0 ∉ stages →
     store s' !! task_id_at t0 p n = store s !! task_id_at t0 p n)
  ∧ (∀ results', out = Ok results' → ∀ t0, t0 ∉ stages →
       results' !! AgentType_value t0 = results !! AgentType_value t0).
Proof.
  revert results s. induction stages as [|t stages IH]; intros results s Hrun.
  - injection Hrun as <- <-. split; [done|]. by intros ? [= <-].
  - cbn [run_stages] in Hrun. unfold mbind, M_bind in Hrun.
    destruct (workflow_data !! AgentType_value t) as [stage_data|] eqn:Hk.
    + destruct (workflow_stage_present (AgentType_value t) t project_id workflow_data
                  results s stage_data Hk)
        as (task_id & task & env' & [now0 ->] & _ & _
            & [[_ Hst]|[(r & now & Hst)|(e & Hst)]]);
        rewrite Hst in Hrun.
      * injection Hrun as <- <-. split; [|discriminate].
        intros t0 p n Hnot. unfold store; cbn. apply lookup_insert_ne.
        intros Heq. apply task_id_at_type in Heq. set_solver.
      * apply IH in Hrun as [Hstore Hres]. split.
        -- intros t0 p n Hnot. rewrite Hstore by set_solver.
           unfold store; cbn. apply lookup_insert_ne.
           intros Heq. apply task_id_at_type in Heq. set_solver.
        -- intros results' Hout t0 Hnot. rewrite (Hres results' Hout) by set_solver.
           apply lookup_insert_ne. intros Heq. apply AgentType_value_inj in Heq.
           set_solver.
      * injection Hrun as <- <-. split; [|discriminate].
        intros t0 p n Hnot. unfold store; cbn. apply lookup_insert_ne.
        intros Heq. apply task_id_at_type in Heq. set_solver.
    + rewrite (workflow_stage_absent _ _ _ _ _ _ Hk) in Hrun.
      apply IH in Hrun as [Hstore Hres]. split.
      * intros t0 p n Hnot. apply Hstore. set_solver.
      * intros results' Hout t0 Hnot. apply (Hres results' Hout). set_solver.
Qed.

(** A run of blocks that returns has created and executed one task for each
    stage that is present, in the order of the blocks, and stored the
    result of each under the key of its stage. *)
Lemma run_stages_returns stages project_id workflow_data results s results' s' :
  NoDup stages →
  run_stages stages project_id workflow_data results s = (Ok results', s') →
  ∃ ids,
    length ids = length (present_of workflow_data stages)
    ∧ sys_log s' =
        sys_log s ++ concat (zip_with stage_records (present_of workflow_data stages) ids)
    ∧ dom results' =
        dom results ∪ list_to_set (AgentType_value <$> present_of workflow_data stages)
    ∧ dom (store s') = dom (store s) ∪ list_to_set ids
    ∧ Forall2 (stage_completed (store s') results')
        (present_of workflow_data stages) ids.
Proof.
  intros Hnodup. revert results s.
  induction stages as [|t stages IH]; intros results s Hrun.
  - injection Hrun as <- <-. exists []. cbn. rewrite app_nil_r.
    repeat split; [set_solver..|constructor].
  - apply NoDup_cons in Hnodup as [Hfresh Hnodup].
    cbn [run_stages] in Hrun. unfold mbind, M_bind in Hrun.
    unfold present_of in *.
    destruct (workflow_data !! AgentType_value t) as [stage_data|] eqn:Hk.
    + rewrite filter_cons_True by eauto.
      destruct (workflow_stage_present (AgentType_value t) t project_id workflow_data
                  results s stage_data Hk)
        as (task_id & task & env' & [now0 ->] & Hty & _
            & [[_ Hst]|[(r & now & Hst)|(e & Hst)]]);
        rewrite Hst in Hrun; try discriminate.
      destruct (run_stages_frame _ _ _ _ _ _ _ Hrun) as [Hstore_frame Hres_frame].
      apply (IH Hnodup) in Hrun as (ids & Hlen & Hlog & Hdom & Hstore & Hall).
      exists (task_id_at t project_id now0 :: ids). cbn. cbn in Hlog, Hstore.
      split; [by rewrite Hlen|]. split; [by rewrite Hlog, <- app_assoc|].
      split; [rewrite Hdom, dom_insert_L; set_solver|].
      split.
      { unfold store in *. cbn in Hstore. rewrite Hstore, dom_insert_L. set_solver. }
      constructor; [|exact Hall].
      exists (completed_task task r now).
      rewrite (Hstore_frame t project_id now0 Hfresh).
      rewrite (Hres_frame results' eq_refl t Hfresh).
      unfold store; cbn. rewrite !lookup_insert_eq. auto.
    + rewrite filter_cons_False by (rewrite Hk; by intros [? ?]).
      rewrite (workflow_stage_absent _ _ _ _ _ _ Hk) in Hrun.
      by apply (IH Hnodup) in Hrun.
Qed.

(** A run of blocks fails only when the block of a stage that is present
    fails. *)
Lemma run_stages_raises stages project_id workflow_data results s e s' :
  run_stages stages project_id workflow_data results s = (Raise e, s') →
  ∃ t results1 s1,
    t ∈ present_of workflow_data stages
    ∧ AgentManager.workflow_stage (AgentType_value t) t project_id workflow_data
        results1 s1 = (Raise e, s').
Proof.
  revert results s. induction stages as [|t stages IH]; intros results s Hrun;
    [discriminate|].
  cbn [run_stages] in Hrun. unfold mbind, M_bind in Hrun. unfold present_of in *.
  destruct (AgentManager.workflow_stage (AgentType_value t) t project_id workflow_data
              results s) as [[results1|e1] s1] eqn:Hst.
  - apply IH in Hrun as (t' & r' & s1' & Hin & Hfail).
    exists t', r', s1'. split; [|exact Hfail].
    apply list_elem_of_filter in Hin as [Hp Hin]. apply list_elem_of_filter.
    split; [exact Hp|]. by apply elem_of_cons; right.
  - injection Hrun as <- <-. exists t, results, s. split; [|exact Hst].
    apply list_elem_of_filter. split; [|by apply elem_of_cons; left].
    destruct (workflow_data !! AgentType_value t) eqn:Hk; [eauto|].
    rewrite (workflow_stage_absent _ _ _ _ _ _ Hk) in Hst. discriminate.
Qed.

Lemma stage_order_NoDup : NoDup stage_order.
Proof.
  unfold stage_order. repeat (apply NoDup_cons; split; [set_solver|]). apply NoDup_nil_2.
Qed.

(** The tasks of a run of stages are one per stage, in the order of the
    stages: each has the type of its stage, the project of the workflow,
    the payload of its stage, and is completed. *)
Lemma stages_ran_tasks agents project_id workflow_data stages env tasks env' :
  stages_ran agents project_id workflow_data stages env tasks env' →
  Forall2 (λ t task,
             AgentTask.agent_type task = t
             ∧ AgentTask.status task = "completed"
             ∧ AgentTask.project_id task = project_id
             ∧ workflow_data !! AgentType_value t = Some (AgentTask.task_data task)
             ∧ ∃ now, AgentTask.id task = task_id_at t project_id now)
    stages tasks.
Proof.
  induction 1 as [|t stages env stage_data agent t0 env0 t1 env1 r env2 now env3
                   tasks env' Hk Ha H0 H1 Hagent Hnow Hran IH]; constructor; [|exact IH].
  cbn. repeat split; eauto.
Qed.

Lemma tasks_stage_completed (stored : gmap string AgentTask.t)
    (results : gmap string pyval) project_id workflow_data stages tasks :
  Forall2 (λ t task,
             AgentTask.agent_type task = t
             ∧ AgentTask.status task = "completed"
             ∧ AgentTask.project_id task = project_id
             ∧ workflow_data !! AgentType_value t = Some (AgentTask.task_data task)
             ∧ ∃ now, AgentTask.id task = task_id_at t project_id now)
    stages tasks →
  Forall (λ task,
            stored !! AgentTask.id task = Some task
            ∧ results !! AgentType_value (AgentTask.agent_type task)
              = Some (AgentTask.result task)) tasks →
  Forall2 (stage_completed stored results) stages (AgentTask.id <$> tasks).
Proof.
  induction 1 as [|t task ts tasks Ht _ IH]; intros Hall; [constructor|].
  apply Forall_cons in Hall as [[Hlook Hres] Hall].
  cbn. constructor; [|by apply IH].
  destruct Ht as (Hty & Hst & _). exists task. rewrite <- Hty. auto.
Qed.

Lemma with_tasks_twice (m : AgentManager.t Agent) (tasks1 tasks2 : gmap string AgentTask.t) :
  with_tasks tasks2 (with_tasks tasks1 m) = with_tasks tasks2 m.
Proof. reflexivity. Qed.

(** A run of blocks that returns is a run of the stages that are present:
    the agents are called as [stages_ran] says, each task is in the store
    as its run has left it, each result is under the key of its stage, and
    nothing else of the manager has changed. *)
Lemma run_stages_ran stages project_id workflow_data results s results' s' :
  NoDup stages →
  run_stages stages project_id workflow_data results s = (Ok results', s') →
  ∃ tasks,
    stages_ran (AgentManager.agents (self s)) project_id workflow_data
      (present_of workflow_data stages) (sys_env s) tasks (sys_env s')
    ∧ sys_log s' =
        sys_log s ++ concat (zip_with stage_records (present_of workflow_data stages)
                               (AgentTask.id <$> tasks))
    ∧ dom results' =
        dom results ∪ list_to_set (AgentType_value <$> present_of workflow_data stages)
    ∧ dom (store s') = dom (store s) ∪ list_to_set (AgentTask.id <$> tasks)
    ∧ Forall (λ task,
                store s' !! AgentTask.id task = Some task
                ∧ results' !! AgentType_value (AgentTask.agent_type task)
                  = Some (AgentTask.result task)) tasks
    ∧ (∀ task_id, task_id ∉ AgentTask.id <$> tasks →
         store s' !! task_id = store s !! task_id)
    ∧ self s' = with_tasks (store s') (self s).
Proof.
  intros Hnodup. revert results s.
  induction stages as [|t stages IH]; intros results s Hrun.
  - injection Hrun as <- <-. exists []. cbn. rewrite app_nil_r.
    split; [constructor|]. split; [reflexivity|]. split; [set_solver|].
    split; [set_solver|]. split; [constructor|]. split; [done|].
    by destruct s as [? ? []].
  - apply NoDup_cons in Hnodup as [Hfresh Hnodup].
    cbn [run_stages] in Hrun. unfold mbind, M_bind in Hrun.
    unfold present_of in *.
    destruct (workflow_data !! AgentType_value t) as [stage_data|] eqn:Hk.
    + rewrite filter_cons_True by eauto.
      rewrite (workflow_stage_run _ _ _ _ _ _ _ Hk) in Hrun.
      destruct (datetime_now (sys_env s)) as [t0 env0] eqn:H0.
      destruct (datetime_now env0) as [t1 env1] eqn:H1. cbn zeta in Hrun.
      destruct (odict.get (AgentManager.agents (self s)) t) as [agent|] eqn:Ha;
        [|discriminate].
      destruct (agent_execute_task agent stage_data env1) as [[r|e] env2] eqn:Hagent;
        [|discriminate].
      destruct (datetime_now env2) as [now env3] eqn:Hnow.
      destruct (run_stages_frame _ _ _ _ _ _ _ Hrun) as [Hstore_frame Hres_frame].
      apply (IH Hnodup) in Hrun
        as (tasks & Hran & Hlog & Hdom & Hstore & Hall & Hframe & Hself).
      cbn [self sys_env sys_log with_tasks AgentManager.agents] in Hran, Hlog, Hself.
      eexists (_ :: tasks). split; [econstructor; eassumption|].
      cbn [fmap list_fmap zip_with concat AgentTask.id completed_task pending_task
           AgentTask.set_result AgentTask.set_completed_at AgentTask.set_status].
      split; [by rewrite Hlog, <- app_assoc|].
      split; [rewrite Hdom, dom_insert_L; set_solver|].
      split.
      { unfold store in *. cbn in Hstore. rewrite Hstore, dom_insert_L. set_solver. }
      split.
      { constructor; [|exact Hall]. cbn.
        rewrite (Hstore_frame t project_id t0 Hfresh).
        rewrite (Hres_frame results' eq_refl t Hfresh).
        unfold store; cbn. rewrite !lookup_insert_eq. auto. }
      split.
      { intros task_id Hnot. apply not_elem_of_cons in Hnot as [Hne Hnot].
        rewrite (Hframe task_id Hnot). unfold store; cbn.
        by rewrite lookup_insert_ne. }
      rewrite Hself. reflexivity.
    + rewrite filter_cons_False by (rewrite Hk; by intros [? ?]).
      rewrite (workflow_stage_absent _ _ _ _ _ _ Hk) in Hrun.
      by apply (IH Hnodup) in Hrun.
Qed.

(** Conversely, the blocks return whenever the agents of the stages that
    are present return one after the other. *)
Lemma stages_ran_returns stages project_id workflow_data results s tasks env' :
  stages_ran (AgentManager.agents (self s)) project_id workflow_data
    (present_of workflow_data stages) (sys_env s) tasks env' →
  ∃ results' s',
    run_stages stages project_id workflow_data results s = (Ok results', s')
    ∧ sys_env s' = env'.
Proof.
  revert results s tasks. induction stages as [|t stages IH]; intros results s tasks Hran.
  - inversion Hran; subst. by exists results, s.
  - cbn [run_stages]. unfold mbind, M_bind. unfold present_of in *.
    destruct (workflow_data !! AgentType_value t) as [stage_data|] eqn:Hk.
    + rewrite filter_cons_True in Hran by eauto.
      inversion Hran as [|? ? ? stage_data' agent t0 env0 t1 env1 r env2 now env3
                           tasks' ? Hk' Ha H0 H1 Hagent Hnow Hrest]; subst.
      rewrite Hk in Hk'. injection Hk' as <-.
      rewrite (workflow_stage_run _ _ _ _ _ _ _ Hk), H0, H1. cbn zeta.
      rewrite Ha, Hagent, Hnow.
      apply IH with (tasks := tasks'). exact Hrest.
    + rewrite filter_cons_False in Hran by (rewrite Hk; by intros [? ?]).
      rewrite (workflow_stage_absent _ _ _ _ _ _ Hk). by apply IH with (tasks := tasks).
Qed.

(** C4.  When [ExecuteWorkflow] returns, it has created and executed
    exactly one task for each stage key that the specification contains,
    in the order requirements, planning, development, testing,
    communication, and nothing for a stage that is absent.  The log shows
    the creation, the execution and the completion of one task per present
    stage in that order; these tasks are the only new ones in the store and
    every other task is as it was; each task has been executed by the agent
    registered for its stage, called with the payload of the stage in the
    world that the stage before has left ([stages_ran]); it is stored as
    that run has left it, completed, and its result, which is what the
    agent returned, is in the returned map under the key of its stage; the
    keys of the returned map are exactly the stage keys present; nothing
    else of the manager has changed.  Conversely the call returns whenever
    these agents return one after the other, and it does not return only
    when the task of a present stage fails.  On the empty specification it
    always returns, with the empty map and no task. *)
Theorem execute_workflow_stages project_id workflow_data s :
  (∀ results s',
     AgentManager.execute_workflow project_id workflow_data s = (Ok results, s') →
     dom results = list_to_set (AgentType_value <$> present_stages workflow_data)
     ∧ ∃ ids,
         length ids = length (present_stages workflow_data)
         ∧ sys_log s' =
             sys_log s ++ [LogWorkflowStarting project_id]
               ++ concat (zip_with stage_records (present_stages workflow_data) ids)
               ++ [LogWorkflowCompleted project_id]
         ∧ dom (store s') = dom (store s) ∪ list_to_set ids
         ∧ Forall2 (stage_completed (store s') results)
             (present_stages workflow_data) ids
         ∧ ∃ tasks,
             ids = AgentTask.id <$> tasks
             ∧ stages_ran (AgentManager.agents (self s)) project_id workflow_data
                 (present_stages workflow_data) (sys_env s) tasks (sys_env s')
             ∧ Forall (λ task,
                         store s' !! AgentTask.id task = Some task
                         ∧ results !! AgentType_value (AgentTask.agent_type task)
                           = Some (AgentTask.result task)) tasks
             ∧ (∀ task_id, task_id ∉ ids → store s' !! task_id = store s !! task_id)
             ∧ self s' = with_tasks (store s') (self s))
  ∧ (∀ tasks env',
       stages_ran (AgentManager.agents (self s)) project_id workflow_data
         (present_stages workflow_data) (sys_env s) tasks env' →
       ∃ results s',
         AgentManager.execute_workflow project_id workflow_data s = (Ok results, s')
         ∧ sys_env s' = env')
  ∧ (∀ e s',
       AgentManager.execute_workflow project_id workflow_data s = (Raise e, s') →
       ∃ t results1 s1,
         t ∈ present_stages workflow_data
         ∧ AgentManager.workflow_stage (AgentType_value t) t project_id workflow_data
             results1 s1 = (Raise e, s'))
  ∧ AgentManager.execute_workflow project_id ∅ s =
      (Ok ∅, mkSys (sys_env s)
               (sys_log s ++ [LogWorkflowStarting project_id; LogWorkflowCompleted project_id])
               (self s)).
Proof.
  split; [|split; [|split]].
  - intros results s' Hrun. rewrite execute_workflow_run_stages in Hrun.
    destruct (run_stages stage_order project_id workflow_data ∅ (started project_id s))
      as [[r|e] s1] eqn:Hstages; [|discriminate].
    injection Hrun as <- <-.
    apply (run_stages_ran _ _ _ _ _ _ _ stage_order_NoDup) in Hstages
      as (tasks & Hran & Hlog & Hdom & Hstore & Hall & Hframe & Hself).
    fold (present_stages workflow_data) in *.
    cbn [started finished sys_env sys_log self] in *.
    pose proof (stages_ran_tasks _ _ _ _ _ _ _ Hran) as Htasks.
    split; [rewrite Hdom; set_solver|].
    exists (AgentTask.id <$> tasks).
    split; [rewrite length_fmap; symmetry; exact (Forall2_length _ _ _ Htasks)|].
    split; [rewrite Hlog; by rewrite <- !app_assoc|].
    split; [exact Hstore|]. split.
    { eapply tasks_stage_completed; eassumption. }
    exists tasks. repeat split; assumption.
  - intros tasks env' Hran.
    destruct (stages_ran_returns stage_order project_id workflow_data ∅
                (started project_id s) tasks env' Hran) as (results & s' & Hrun & Henv).
    rewrite execute_workflow_run_stages, Hrun. eexists _, _. split; [reflexivity|].
    exact Henv.
  - intros e s' Hrun. rewrite execute_workflow_run_stages in Hrun.
    destruct (run_stages stage_order project_id workflow_data ∅ (started project_id s))
      as [[r|e1] s1] eqn:Hstages; [discriminate|].
    injection Hrun as <- <-. by apply run_stages_raises in Hstages.
  - unfold AgentManager.execute_workflow, mbind, M_bind, logger, mret, M_ret. cbn.
    rewrite !workflow_stage_absent by apply lookup_empty. cbn.
    by rewrite <- app_assoc.
Qed.

End WorkflowFacts.

(** ** The service registry *)
Section RegistryFacts.
Context {Env : Type} `{!Runtime Env}.

Abbreviation registry := (Sys Env MCPManager.t).
Implicit Types (s : registry) (service : string).

Lemma odict_get_In {V} (d : odict.t string V) (k : string) (v : V) :
  (k, v) ∈ d → is_Some (odict.get d k).
Proof.
  induction d as [|[k' v'] d IH]; intros Hin; [by apply elem_of_nil in Hin|].
  cbn. destruct (decide (k = k')); [eauto|].
  apply elem_of_cons in Hin as [Heq|Hin]; [congruence|auto].
Qed.

(** A probe never raises: it records the service as connected or in error. *)
Lemma probe_records s service_name endpoint :
  ∃ conn env' r,
    MCPManager.probe service_name endpoint s
      = (Ok tt, mkSys env' (sys_log s ++ [r])
                  (MCPManager.set_connections <[service_name := conn]> (self s)))
    ∧ is_registry_record r
    ∧ MCPManager.endpoint conn = endpoint
    ∧ (MCPManager.status conn = "connected" ∨ MCPManager.status conn = "error").
Proof.
  unfold MCPManager.probe, try_except, mbind, M_bind, ext, ext_total, modify_self,
    logger. cbn.
  destruct (session_get (endpoint +:+ "/health") (sys_env s)) as [[response|e] env1]; cbn.
  - destruct (resp_status response =? 200); cbn;
      destruct (datetime_now env1) as [now env2]; cbn;
      eexists _, _, _; (split; [reflexivity|]); cbn; auto.
  - destruct (datetime_now env1) as [now env2]; cbn.
    eexists _, _, _; (split; [reflexivity|]); cbn; auto.
Qed.

Lemma probes_keep_configured (eps : odict.t string string) s :
  (∀ k v, (k, v) ∈ eps → is_Some (odict.get (MCPManager.endpoints (self s)) k)) →
  connections_configured (self s) →
  ∃ s', for_each eps (λ '(service_name, endpoint),
                        MCPManager.probe service_name endpoint) s = (Ok tt, s')
        ∧ connections_configured (self s')
        ∧ MCPManager.endpoints (self s') = MCPManager.endpoints (self s)
        ∧ MCPManager.is_initialized (self s') = MCPManager.is_initialized (self s)
        ∧ ∃ probe_log, sys_log s' = sys_log s ++ probe_log
                       ∧ Forall is_registry_record probe_log.
Proof.
  revert s. induction eps as [|[name ep] eps IH]; intros s Hsub Hwf.
  - exists s. cbn. repeat split; auto. exists []. by rewrite app_nil_r.
  - cbn [for_each]. unfold mbind, M_bind.
    destruct (probe_records s name ep) as (conn & env' & r & -> & Hr & _ & _).
    destruct (IH (mkSys env' (sys_log s ++ [r])
                    (MCPManager.set_connections <[name := conn]> (self s))))
      as (s' & Hrun & Hwf' & Hep & Hinit & probe_log & Hlog & Hall).
    + intros k v Hin. cbn. apply (Hsub k v). apply elem_of_cons. auto.
    + intros k. cbn. destruct (decide (name = k)) as [<-|Hne].
      * intros _. apply (Hsub name ep). apply elem_of_cons. auto.
      * rewrite lookup_insert_ne by assumption. apply Hwf.
    + exists s'. rewrite Hrun. repeat split; auto.
      exists (r :: probe_log). cbn in Hlog. rewrite Hlog, <- app_assoc.
      split; [reflexivity|]. by constructor.
Qed.

Lemma init_configured : connections_configured MCPManager.__init__.
Proof. intros k [c Hc]. cbn in Hc. by rewrite lookup_empty in Hc. Qed.

(** [initialize] never raises, and keeps every connection under a
    configured name. *)
Lemma initialize_configured s :
  connections_configured (self s) →
  ∃ s', MCPManager.initialize s = (Ok tt, s') ∧ connections_configured (self s').
Proof.
  intros Hwf. unfold MCPManager.initialize, mbind, M_bind, get_self. cbn.
  destruct (MCPManager.is_initialized (self s)); [exists s; auto|].
  unfold logger, modify_self. cbn.
  edestruct (probes_keep_configured (MCPManager.endpoints (self s))
               (mkSys (sys_env s) (sys_log s ++ [LogMcpInitializing])
                  (MCPManager.set_session
                     (Some (MCPManager.aiohttp_ClientSession false)) (self s))))
    as (s' & Hrun & Hwf' & Hep & _ & _).
  - intros k v Hin. cbn. by apply (odict_get_In _ k v).
  - exact Hwf.
  - rewrite Hrun. eexists; split; [reflexivity|]. exact Hwf'.
Qed.

(** The first [initialize] of a registry: it returns, having logged its
    own records only. *)
Lemma initialize_first_run env log :
  ∃ env' registry_log mcp,
    MCPManager.initialize (mkSys env log MCPManager.__init__)
      = (Ok tt, mkSys env' (log ++ registry_log) mcp)
    ∧ Forall is_registry_record registry_log
    ∧ MCPManager.is_initialized mcp = true.
Proof.
  unfold MCPManager.initialize, mbind, M_bind, get_self. cbn [self MCPManager.is_initialized MCPManager.__init__].
  unfold logger, modify_self. cbn [sys_env sys_log self].
  edestruct (probes_keep_configured (MCPManager.endpoints MCPManager.__init__)
               (mkSys env (log ++ [LogMcpInitializing])
                  (MCPManager.set_session
                     (Some (MCPManager.aiohttp_ClientSession false)) MCPManager.__init__)))
    as (s' & Hrun & _ & _ & _ & probe_log & Hlog & Hall).
  - intros k v Hin. by apply (odict_get_In _ k v).
  - apply init_configured.
  - rewrite Hrun. destruct s' as [env' log' mcp']. cbn in Hlog. subst log'.
    eexists env', ([LogMcpInitializing] ++ probe_log ++ [LogMcpInitialized]), _.
    split; [|split].
    + cbn. rewrite <- !app_assoc. reflexivity.
    + apply Forall_app. split; [by repeat constructor|].
      apply Forall_app. split; [exact Hall|by repeat constructor].
    + reflexivity.
Qed.

Lemma cleanup_configured s :
  ∃ s', MCPManager.cleanup s = (Ok tt, s') ∧ connections_configured (self s').
Proof.
  eexists; split; [reflexivity|]. intros k [c Hc]. cbn in Hc.
  by rewrite lookup_empty in Hc.
Qed.

(** No path of [send_message] writes to the manager. *)
Lemma send_message_reads_only s service message_data out s' :
  MCPManager.send_message service message_data s = (out, s') → self s' = self s.
Proof.
  unfold MCPManager.send_message, mbind, M_bind, get_self. cbn.
  destruct (MCPManager.connections (self s) !! service) as [conn|];
    [|intros [= <- <-]; reflexivity].
  destruct (negb (String.eqb (MCPManager.status conn) "connected"));
    [intros [= <- <-]; reflexivity|].
  unfold try_except, mbind, M_bind, MCPManager.post, raise, ext, logger, mret, M_ret.
  destruct (MCPManager.session (self s)) as [c|]; cbn;
    [|intros [= <- <-]; reflexivity].
  destruct (MCPManager.closed c); cbn; [intros [= <- <-]; reflexivity|].
  destruct (session_post _ message_data (sys_env s)) as [[response|e] env1]; cbn;
    [|intros [= <- <-]; reflexivity].
  destruct (resp_status response =? 200); cbn.
  - destruct (resp_json response env1) as [[r|e] env2]; cbn;
      intros [= <- <-]; reflexivity.
  - destruct (resp_text response env1) as [[r|e] env2]; cbn;
      intros [= <- <-]; reflexivity.
Qed.

(** C9.  [Send] to a name that is not configured fails with
    [ServiceUnknown]; [Send] to a service whose recorded status is not
    "connected" fails with [ServiceUnavailable].  In both cases that error
    is all that happens: no request is made and the registry, with every
    service's recorded status, is the one before the call.  (No path of
    [Send] writes to the registry at all.) *)
Theorem send_message_failures s service message_data :
  (connections_configured (self s) →
   odict.get (MCPManager.endpoints (self s)) service = None →
   MCPManager.send_message service message_data s = (Raise (ServiceUnknown service), s))
  ∧ (∀ conn, MCPManager.connections (self s) !! service = Some conn →
       MCPManager.status conn ≠ "connected" →
       MCPManager.send_message service message_data s
         = (Raise (ServiceUnavailable service), s))
  ∧ (∀ out s', MCPManager.send_message service message_data s = (out, s') →
       MCPManager.connections (self s') = MCPManager.connections (self s)).
Proof.
  split; [|split].
  - intros Hwf Hnone.
    unfold MCPManager.send_message, mbind, M_bind, get_self. cbn.
    destruct (MCPManager.connections (self s) !! service) as [conn|] eqn:Hc;
      [|reflexivity].
    destruct (Hwf service) as [ep Hep]; [eauto|]. congruence.
  - intros conn Hc Hst.
    unfold MCPManager.send_message, mbind, M_bind, get_self. cbn. rewrite Hc.
    destruct (String.eqb (MCPManager.status conn) "connected") eqn:Heq; [|reflexivity].
    apply String.eqb_eq in Heq. contradiction.
  - intros out s' Hrun. by rewrite (send_message_reads_only _ _ _ _ _ Hrun).
Qed.
End RegistryFacts.

(** ** Startup *)
Section StartupFacts.
Context {Env Agent : Type} `{!Runtime Env} `{!AgentClasses Env Agent}.

Lemma initialize_after_registry env log :
  ∃ env0 registry_log mcp,
    Forall is_registry_record registry_log
    ∧ MCPManager.initialize
        (mkSys env (log ++ [LogManagerInitializing]) MCPManager.__init__)
      = (Ok tt, mkSys env0 (log ++ [LogManagerInitializing] ++ registry_log) mcp)
    ∧ AgentManager.initialize (mkSys env log (@AgentManager.__init__ Agent)) =
        (AgentManager.register REQUIREMENTS;;
         AgentManager.register PLANNING;;
         AgentManager.register DEVELOPMENT;;
         AgentManager.register TESTING;;
         AgentManager.register COMMUNICATION;;
         m ← get_self;
         for_each (AgentManager.agents m) (λ '(agent_type, agent),
           agent' ← ext (agent_initialize agent);
           modify_self (AgentManager.set_agents (odict.set agent_type agent'));;
           logger (LogAgentInitialized agent_type));;
         modify_self (AgentManager.set_is_initialized true);;
         logger LogManagerInitialized)
        (mkSys env0 (log ++ [LogManagerInitializing] ++ registry_log)
           (AgentManager.mk [] ∅ (Some mcp) false)).
Proof.
  destruct (initialize_first_run env (log ++ [LogManagerInitializing]))
    as (env0 & registry_log & mcp & Hrun & Hall & _).
  exists env0, registry_log, mcp. split; [exact Hall|].
  split; [by rewrite Hrun, <- app_assoc|].
  unfold AgentManager.initialize.
  unfold mbind at 1, M_bind at 1, get_self at 1.
  cbn [self AgentManager.is_initialized AgentManager.__init__].
  unfold mbind at 1, M_bind at 1, logger at 1. cbn [sys_env sys_log self].
  unfold mbind at 1, M_bind at 1, modify_self at 1. cbn [sys_env sys_log self].
  unfold mbind at 1, M_bind at 1, AgentManager.on_mcp_manager.
  cbn [sys_env sys_log self AgentManager.set_mcp_manager AgentManager.mcp_manager
       AgentManager.agents AgentManager.tasks AgentManager.is_initialized].
  rewrite Hrun. cbn [sys_env sys_log self AgentManager.set_mcp_manager AgentManager.mcp_manager
       AgentManager.agents AgentManager.tasks AgentManager.is_initialized].
  rewrite <- app_assoc. reflexivity.
Qed.

Ltac startup_step H :=
  lazymatch type of H with
  | context [agent_new ?t ?m ?e] =>
      destruct (agent_new t m e) as [[?|?] ?] eqn:?
  | context [agent_initialize ?a ?e] =>
      destruct (agent_initialize a e) as [[?|?] ?] eqn:?
  end;
  cbn in H;
  repeat (first [ rewrite decide_True in H by reflexivity
                | rewrite decide_False in H by discriminate ];
          cbn in H);
  unfold mbind, M_bind in H; cbn in H.

Ltac startup_done :=
  cbn;
  repeat (first [ rewrite decide_True by reflexivity
                | rewrite decide_False by discriminate ];
          cbn);
  rewrite ?app_nil_r, <- ?app_assoc;
  reflexivity.

(** The calls that returned before the point that a run of [initialize]
    has reached, read off the context. *)
Ltac startup_chain :=
  unfold stage_order; cbn [take drop];
  repeat (econstructor; [eassumption|]); constructor.

(** C2, as the code has it.  On a manager that has just been constructed,
    [Initialize] first brings up the service registry, by the registry's
    own [initialize] on a new registry, which returns; then it constructs
    the five agents in the order requirements, planning, development,
    testing, communication, each in the world that the call before has
    left; then it initializes them in that order.  It handles no failure.
    When the construction of an agent raises [e], [Initialize] raises [e]
    at once: the agents constructed before are registered as they were
    constructed, none is initialized, no later agent is constructed.  When
    the initialization of an agent raises [e], [Initialize] raises [e] at
    once: the agents before it are registered as their initialization has
    left them, the failing agent and the agents after it as they were
    constructed.  In both cases the manager is not marked initialized, the
    world is the one that the failing call has left, and the log has no
    record of the failure.  When no call raises, all five agents are
    registered initialized and the manager is marked initialized. *)
Theorem initialize_stops_at_first_failure env log out s' :
  AgentManager.initialize (mkSys env log (@AgentManager.__init__ Agent)) = (out, s') →
  ∃ env0 registry_log mcp,
    MCPManager.initialize (mkSys env (log ++ [LogManagerInitializing]) MCPManager.__init__)
      = (Ok tt, mkSys env0 (log ++ [LogManagerInitializing] ++ registry_log) mcp)
    ∧ Forall is_registry_record registry_log
    ∧ ((∃ j t agents env1 e env2,
          stage_order !! j = Some t
          ∧ constructed (take j stage_order) env0 agents env1
          ∧ agent_new t mcp_manager_ref env1 = (Raise e, env2)
          ∧ out = Raise e
          ∧ s' = mkSys env2 (log ++ [LogManagerInitializing] ++ registry_log)
                   (AgentManager.mk agents ∅ (Some mcp) false))
       ∨ (∃ agents env1 k t agent ready env2 e env3,
            constructed stage_order env0 agents env1
            ∧ agents !! k = Some (t, agent)
            ∧ initialized (take k agents) env1 ready env2
            ∧ agent_initialize agent env2 = (Raise e, env3)
            ∧ out = Raise e
            ∧ s' = mkSys env3
                     (log ++ [LogManagerInitializing] ++ registry_log
                        ++ (LogAgentInitialized <$> take k stage_order))
                     (AgentManager.mk (ready ++ drop k agents) ∅ (Some mcp) false))
       ∨ (∃ agents env1 ready env2,
            constructed stage_order env0 agents env1
            ∧ initialized agents env1 ready env2
            ∧ out = Ok tt
            ∧ s' = mkSys env2
                     (log ++ [LogManagerInitializing] ++ registry_log
                        ++ (LogAgentInitialized <$> stage_order)
                        ++ [LogManagerInitialized])
                     (AgentManager.mk ready ∅ (Some mcp) true))).
Proof.
  intros Hrun.
  destruct (initialize_after_registry env log)
    as (env0 & registry_log & mcp & Hall & Hregistry & Heq).
  rewrite Heq in Hrun. clear Heq.
  exists env0, registry_log, mcp. split; [exact Hregistry|]. split; [exact Hall|].
  clear Hregistry Hall.
  unfold AgentManager.register, mbind, M_bind, ext, modify_self, logger, get_self in Hrun.
  cbn in Hrun.
  (* the five constructions *)
  startup_step Hrun;
    [|injection Hrun as <- <-; left; eexists 0%nat, _, _, _, _, _;
      split; [reflexivity|]; split; [startup_chain|]; split; [eassumption|];
      split; [reflexivity|]; startup_done].
  startup_step Hrun;
    [|injection Hrun as <- <-; left; eexists 1%nat, _, _, _, _, _;
      split; [reflexivity|]; split; [startup_chain|]; split; [eassumption|];
      split; [reflexivity|]; startup_done].
  startup_step Hrun;
    [|injection Hrun as <- <-; left; eexists 2%nat, _, _, _, _, _;
      split; [reflexivity|]; split; [startup_chain|]; split; [eassumption|];
      split; [reflexivity|]; startup_done].
  startup_step Hrun;
    [|injection Hrun as <- <-; left; eexists 3%nat, _, _, _, _, _;
      split; [reflexivity|]; split; [startup_chain|]; split; [eassumption|];
      split; [reflexivity|]; startup_done].
  startup_step Hrun;
    [|injection Hrun as <- <-; left; eexists 4%nat, _, _, _, _, _;
      split; [reflexivity|]; split; [startup_chain|]; split; [eassumption|];
      split; [reflexivity|]; startup_done].
  (* the five initializations *)
  startup_step Hrun;
    [|injection Hrun as <- <-; right; left; eexists _, _, 0%nat, _, _, _, _, _, _;
      split; [startup_chain|]; split; [reflexivity|]; split; [startup_chain|];
      split; [eassumption|]; split; [reflexivity|]; startup_done].
  startup_step Hrun;
    [|injection Hrun as <- <-; right; left; eexists _, _, 1%nat, _, _, _, _, _, _;
      split; [startup_chain|]; split; [reflexivity|]; split; [startup_chain|];
      split; [eassumption|]; split; [reflexivity|]; startup_done].
  startup_step Hrun;
    [|injection Hrun as <- <-; right; left; eexists _, _, 2%nat, _, _, _, _, _, _;
      split; [startup_chain|]; split; [reflexivity|]; split; [startup_chain|];
      split; [eassumption|]; split; [reflexivity|]; startup_done].
  startup_step Hrun;
    [|injection Hrun as <- <-; right; left; eexists _, _, 3%nat, _, _, _, _, _, _;
      split; [startup_chain|]; split; [reflexivity|]; split; [startup_chain|];
      split; [eassumption|]; split; [reflexivity|]; startup_done].
  startup_step Hrun;
    [|injection Hrun as <- <-; right; left; eexists _, _, 4%nat, _, _, _, _, _, _;
      split; [startup_chain|]; split; [reflexivity|]; split; [startup_chain|];
      split; [eassumption|]; split; [reflexivity|]; startup_done].
  injection Hrun as <- <-. right; right. eexists _, _, _, _.
  split; [startup_chain|]. split; [startup_chain|]. split; [reflexivity|].
  startup_done.
Qed.
End StartupFacts.

(** ** The requirements agent *)
Section RequirementsFacts.
Context {Env : Type} `{!Runtime Env} `{!RequirementsAgent.Handlers Env}.

Implicit Types (a : RequirementsAgent.t) (d : gmap string pyval) (env : Env).

Lemma execute_task_not_initialized a task_data env :
  RequirementsAgent.is_initialized a = false →
  RequirementsAgent.execute_task a task_data env = (Raise NotInitialized, env).
Proof. intros Hi. unfold RequirementsAgent.execute_task. rewrite Hi. reflexivity. Qed.

Lemma execute_task_unknown a d env v :
  RequirementsAgent.is_initialized a = true →
  d !! "analysis_type" = Some v → known_analysis_type v = false →
  RequirementsAgent.execute_task a (VDict d) env = (Raise (UnknownTaskVariant v), env).
Proof.
  intros Hi Hv Hk. unfold RequirementsAgent.execute_task. rewrite Hi. cbn.
  rewrite Hv. cbn. unfold known_analysis_type in Hk.
  apply orb_false_iff in Hk as [Hk H3]. apply orb_false_iff in Hk as [H1 H2].
  rewrite H1, H2, H3. reflexivity.
Qed.

Lemma execute_task_known a d env v :
  RequirementsAgent.is_initialized a = true →
  d !! "analysis_type" = Some v → known_analysis_type v = true →
  handler_run a d env (RequirementsAgent.execute_task a (VDict d) env).
Proof.
  intros Hi Hv Hk. unfold RequirementsAgent.execute_task, handler_run.
  rewrite Hi. cbn. rewrite Hv. cbn. unfold known_analysis_type in Hk.
  destruct (py_eq_str v "requirements_extraction"); [auto|].
  destruct (py_eq_str v "requirements_validation"); [auto|].
  destruct (py_eq_str v "requirements_prioritization"); [auto|discriminate].
Qed.

(** C10.  On an initialized requirements agent, a payload without
    [analysis_type] is handled as [requirements_extraction]: the result
    of [Execute] is the result of the extraction handler.  A payload is
    rejected with [UnknownTaskVariant] when its [analysis_type] is present
    and is none of the three known values; when it is absent or known, the
    payload goes to a handler. *)
Theorem missing_analysis_type_defaults a d env :
  RequirementsAgent.is_initialized a = true →
  (d !! "analysis_type" = None →
   RequirementsAgent.execute_task a (VDict d) env
     = RequirementsAgent._extract_requirements a (VDict d) env)
  ∧ (∀ v, d !! "analysis_type" = Some v → known_analysis_type v = false →
       RequirementsAgent.execute_task a (VDict d) env
         = (Raise (UnknownTaskVariant v), env))
  ∧ (d !! "analysis_type" = None
     ∨ (∃ v, d !! "analysis_type" = Some v ∧ known_analysis_type v = true) →
     handler_run a d env (RequirementsAgent.execute_task a (VDict d) env)).
Proof.
  intros Hi.
  assert (Habsent : d !! "analysis_type" = None →
    RequirementsAgent.execute_task a (VDict d) env
      = RequirementsAgent._extract_requirements a (VDict d) env).
  { intros Hnone. unfold RequirementsAgent.execute_task. rewrite Hi. cbn.
    rewrite Hnone. reflexivity. }
  split; [exact Habsent|]. split.
  - intros v Hv Hk. by apply execute_task_unknown.
  - intros [Hnone|(v & Hv & Hk)].
    + left. by apply Habsent.
    + by apply (execute_task_known a d env v).
Qed.
End RequirementsFacts.

(** ** Runs in the small world *)
Section Scenarios.
Import Demo Scenario.

Lemma execute_task_unknown_id_witness :
  store one_agent !! task_id = None
  ∧ AgentManager.execute_task task_id one_agent = (Raise (TaskNotFound task_id), one_agent).
Proof.
  split; [reflexivity|].
  apply (execute_task_unknown_id one_agent task_id). reflexivity.
Defined.

(** C1 at the planning agent.  [PlanningAgent] has no [execute_task]: a
    payload whose [planning_type] matches nothing is answered with an
    [AttributeError], not with [UnknownTaskVariant]; and the payload that
    the manager itself builds in [generate_epics_and_stories], with a
    [planning_type] meant to be known, is answered with the same
    error. *)
Lemma planning_agent_cannot_execute :
  agent_execute_task planning_agent no_such_type []
    = (Raise (no_attribute "PlanningAgent" "execute_task"), [])
  ∧ no_attribute "PlanningAgent" "execute_task" ≠ UnknownTaskVariant (VStr "no_such_type")
  ∧ returned (AgentManager.generate_epics_and_stories 42 (VList [])) planning_only
    = Raise (no_attribute "PlanningAgent" "execute_task").
Proof. split; [reflexivity|]. split; [discriminate|]. vm_compute. reflexivity. Qed.

(** C3 at two calls within one clock tick.  Two [CreateTask] calls for
    the same agent type and project, made while the clock shows the same
    reading, return the same id, and the second task replaces the first
    in the store. *)
Lemma create_task_same_tick_same_id :
  returned (AgentManager.create_task REQUIREMENTS 42 payload "medium") same_tick
    = Ok "requirements_42_1700000000000000"
  ∧ returned (AgentManager.create_task REQUIREMENTS 42 other_payload "high") first_created
    = Ok "requirements_42_1700000000000000"
  ∧ size (store second_created) = 1%nat
  ∧ AgentTask.task_data <$> store second_created !! "requirements_42_1700000000000000"
    = Some other_payload.
Proof. vm_compute. repeat split; reflexivity. Qed.

(** C2 is not what the code does.  With the classes of the repository,
    the construction of the planning agent raises (its constructor takes
    no argument and is given one); [Initialize] raises that error, the
    development, testing and communication agents are never constructed,
    the requirements agent that was registered is not initialized, the
    manager is not marked initialized, and the failure is recorded
    nowhere. *)
Lemma initialize_blocked_by_planning_agent :
  fst startup = Raise (arity_error "PlanningAgent" "1 positional argument" "2 were")
  ∧ AgentManager.agents (self (snd startup))
    = [(REQUIREMENTS, Repo.Requirements (RequirementsAgent.mk mcp_manager_ref None false))]
  ∧ AgentManager.is_initialized (self (snd startup)) = false
  ∧ Forall (λ r, is_registry_record r ∨ r = LogManagerInitializing) (sys_log (snd startup)).
Proof.
  split; [vm_compute; reflexivity|]. split; [vm_compute; reflexivity|].
  split; [vm_compute; reflexivity|].
  set (l := sys_log (snd startup)). vm_compute in l. subst l.
  repeat (constructor; [first [left; exact I | right; reflexivity]|]).
  constructor.
Qed.

Lemma initialize_stops_at_first_failure_witness :
  ∃ out s',
    AgentManager.initialize (fresh [] : Sys World (AgentManager.t Repo.Agent)) = (out, s')
    ∧ AgentManager.is_initialized (self s') = false.
Proof.
  destruct (AgentManager.initialize (fresh [] : Sys World (AgentManager.t Repo.Agent)))
    as [out s'] eqn:Hrun.
  exists out, s'. split; [reflexivity|].
  destruct (initialize_stops_at_first_failure [] [] out s' Hrun)
    as (env0 & registry_log & mcp & _ & _ & [Hnew|[Hinit|Hdone]]).
  - destruct Hnew as (j & t & agents & env1 & e & env2 & _ & _ & _ & _ & ->).
    reflexivity.
  - destruct Hinit
      as (agents & env1 & k & t & agent & ready & env2 & e & env3 & _ & _ & _ & _ & _ & ->).
    reflexivity.
  - destruct Hdone as (agents & env1 & ready & env2 & _ & _ & Hout & _).
    vm_compute in Hrun. injection Hrun as <- _. discriminate Hout.
Defined.

Lemma execute_workflow_stages_witness :
  AgentManager.execute_workflow 42 two_stages doubles
    = (Ok two_stages, run (AgentManager.execute_workflow 42 two_stages) doubles)
  ∧ dom two_stages
    = list_to_set (AgentType_value <$> present_stages two_stages).
Proof.
  assert (Hrun : AgentManager.execute_workflow 42 two_stages doubles
            = (Ok two_stages, run (AgentManager.execute_workflow 42 two_stages) doubles))
    by (vm_compute; reflexivity).
  split; [exact Hrun|].
  exact (proj1 (proj1 (execute_workflow_stages 42 two_stages doubles) two_stages _ Hrun)).
Defined.



(** C6 is not what the code does for a task that has completed before.
    The task of the scenario completes with a result; after the cleanup
    of the manager its second execution fails, and the status view then
    shows "failed" with an error string and the result of the first
    execution, not a null result. *)
Lemma failed_task_keeps_old_result :
  returned (AgentManager.execute_task task_id) created = Ok no_requirements
  ∧ is_Some (store cleaned !! task_id)
  ∧ returned (AgentManager.execute_task task_id) cleaned = Raise NotInitialized
  ∧ TaskStatus.status <$> AgentManager.get_task_status (self failed_after) task_id
    = Some "failed"
  ∧ TaskStatus.error <$> AgentManager.get_task_status (self failed_after) task_id
    = Some (Some (str_exn NotInitialized))
  ∧ TaskStatus.result <$> AgentManager.get_task_status (self failed_after) task_id
    = Some no_requirements
  ∧ no_requirements ≠ VNone.
Proof.
  split; [vm_compute; reflexivity|]. split; [vm_compute; eauto|].
  split; [vm_compute; reflexivity|]. split; [vm_compute; reflexivity|].
  split; [vm_compute; reflexivity|]. split; [vm_compute; reflexivity|].
  discriminate.
Qed.

Lemma execute_task_then_status_witness :
  ∃ view,
    AgentManager.get_task_status (self completed) task_id = Some view
    ∧ TaskStatus.status view = "completed"
    ∧ TaskStatus.result view = no_requirements.
Proof.
  destruct (execute_task_then_status created task_id
              (pending_task task_id REQUIREMENTS 42 payload "medium" 11)
              requirements_agent (Ok no_requirements) completed)
    as (view & Hview & Hout & Hstatus & _ & Hresult).
  - vm_compute. reflexivity.
  - reflexivity.
  - vm_compute. reflexivity.
  - exists view. auto.
Defined.



Lemma send_message_failures_witness :
  MCPManager.send_message "fax" (VDict ∅) offline = (Raise (ServiceUnknown "fax"), offline)
  ∧ MCPManager.send_message "notion" (VDict ∅) offline
    = (Raise (ServiceUnavailable "notion"), offline).
Proof.
  destruct (send_message_failures offline "fax" (VDict ∅)) as (Hunknown & _ & _).
  destruct (send_message_failures offline "notion" (VDict ∅)) as (_ & Hunavailable & _).
  split.
  - apply Hunknown; [|reflexivity].
    destruct (initialize_configured (mkSys [] [] MCPManager.__init__) init_configured)
      as (s' & Hrun & Hwf).
    unfold offline, run. rewrite Hrun. exact Hwf.
  - apply (Hunavailable (MCPManager.mkConnection "http://localhost:8004" "error" 0
                           (Some (str_exn refused)))).
    + vm_compute. reflexivity.
    + vm_compute. discriminate.
Defined.

Lemma missing_analysis_type_defaults_witness :
  RequirementsAgent.is_initialized (RequirementsAgent.mk mcp_manager_ref None true) = true
  ∧ ({[ "conversations" := VList [] ]} : gmap string pyval) !! "analysis_type" = None
  ∧ RequirementsAgent.execute_task (RequirementsAgent.mk mcp_manager_ref None true) payload []
    = (Ok no_requirements, []).
Proof.
  split; [reflexivity|]. split; [reflexivity|].
  etrans.
  - apply (proj1 (missing_analysis_type_defaults
                    (RequirementsAgent.mk mcp_manager_ref None true)
                    {[ "conversations" := VList [] ]} [] eq_refl)).
    reflexivity.
  - reflexivity.
Defined.
End Scenarios.

(** * More of the code *)

(** ** More of the service registry *)
Section RegistryMore.
Context {Env : Type} `{!Runtime Env}.

Implicit Types (s : Sys Env MCPManager.t) (service : string).

(** X1.  A health probe never raises.  It records the service with the
    probed endpoint: as "connected" when the request was answered with
    status 200, as "error" when it was answered with another status, and
    as "error" with the text of the exception when the request failed. *)
Theorem probe_reflects_health s service_name endpoint :
  ∃ conn env' r,
    MCPManager.probe service_name endpoint s
      = (Ok tt, mkSys env' (sys_log s ++ [r])
                  (MCPManager.set_connections <[service_name := conn]> (self s)))
    ∧ MCPManager.endpoint conn = endpoint
    ∧ match session_get (endpoint +:+ "/health") (sys_env s) with
      | (Ok response, _) =>
          MCPManager.error conn = None
          ∧ MCPManager.status conn
            = (if resp_status response =? 200 then "connected" else "error")
      | (Raise e, _) =>
          MCPManager.status conn = "error"
          ∧ MCPManager.error conn = Some (str_exn e)
      end.
Proof.
  unfold MCPManager.probe, try_except, mbind, M_bind, ext, ext_total, modify_self,
    logger. cbn.
  destruct (session_get (endpoint +:+ "/health") (sys_env s)) as [[response|e] env1]; cbn.
  - destruct (resp_status response =? 200); cbn;
      destruct (datetime_now env1) as [now env2]; cbn;
      eexists _, _, _; (split; [reflexivity|]); cbn; auto.
  - destruct (datetime_now env1) as [now env2]; cbn.
    eexists _, _, _; (split; [reflexivity|]); cbn; auto.
Qed.

(** The probing loop: it returns; a name it does not probe keeps its
    entry; a name it probes ends with a probed entry. *)
Lemma probes_cover (eps : odict.t string string) s :
  ∃ s',
    for_each eps (λ '(service_name, endpoint),
                    MCPManager.probe service_name endpoint) s = (Ok tt, s')
    ∧ MCPManager.is_initialized (self s') = MCPManager.is_initialized (self s)
    ∧ MCPManager.endpoints (self s') = MCPManager.endpoints (self s)
    ∧ MCPManager.session (self s') = MCPManager.session (self s)
    ∧ (∀ k, MCPManager.connections (self s') !! k = MCPManager.connections (self s) !! k
            ∨ ∃ conn, MCPManager.connections (self s') !! k = Some conn
                      ∧ probed conn ∧ (k, MCPManager.endpoint conn) ∈ eps)
    ∧ (∀ k e, (k, e) ∈ eps →
         ∃ conn, MCPManager.connections (self s') !! k = Some conn
                 ∧ probed conn ∧ (k, MCPManager.endpoint conn) ∈ eps).
Proof.
  revert s. induction eps as [|[name ep] eps IH]; intros s.
  - exists s. cbn. repeat split; auto. intros k e Hin. by apply elem_of_nil in Hin.
  - cbn [for_each]. unfold mbind, M_bind.
    destruct (probe_records s name ep) as (conn & env' & r & -> & _ & Hep & Hst).
    destruct (IH (mkSys env' (sys_log s ++ [r])
                    (MCPManager.set_connections <[name := conn]> (self s))))
      as (s' & -> & Hinit & Hends & Hsess & Hframe & Hcover).
    cbn in Hinit, Hends, Hsess, Hframe.
    assert (Hall : ∀ k,
      MCPManager.connections (self s') !! k = MCPManager.connections (self s) !! k
      ∨ ∃ conn0, MCPManager.connections (self s') !! k = Some conn0
                 ∧ probed conn0 ∧ (k, MCPManager.endpoint conn0) ∈ (name, ep) :: eps).
    { intros k. destruct (Hframe k) as [Hk|(conn0 & Hk & Hp & Hin)].
      - destruct (decide (name = k)) as [<-|Hne].
        + right. exists conn. rewrite Hk, lookup_insert_eq.
          split; [reflexivity|]. split; [exact Hst|]. rewrite Hep. by left.
        + left. by rewrite Hk, lookup_insert_ne.
      - right. exists conn0. split; [exact Hk|]. split; [exact Hp|]. by right. }
    exists s'. split; [reflexivity|]. repeat split; auto.
    intros k e Hin. apply elem_of_cons in Hin as [[= -> ->]|Hin].
    + destruct (Hframe name) as [Hk|(conn0 & Hk & Hp & Hin)].
      * exists conn. rewrite Hk, lookup_insert_eq.
        split; [reflexivity|]. split; [exact Hst|]. rewrite Hep. by left.
      * exists conn0. split; [exact Hk|]. split; [exact Hp|]. by right.
    + destruct (Hcover k e Hin) as (conn0 & Hk & Hp & Hin').
      exists conn0. split; [exact Hk|]. split; [exact Hp|]. by right.
Qed.

Lemma odict_get_Some_In {V} (d : odict.t string V) (k : string) (v : V) :
  odict.get d k = Some v → (k, v) ∈ d.
Proof.
  induction d as [|[k' v'] d IH]; cbn; [discriminate|].
  destruct (decide (k = k')) as [->|Hne].
  - intros [= ->]. by left.
  - intros Hget. right. auto.
Qed.

Lemma odict_get_None_notin {V} (d : odict.t string V) (k : string) (v : V) :
  odict.get d k = None → (k, v) ∉ d.
Proof.
  intros Hnone Hin. apply odict_get_In in Hin as [x Hx]. congruence.
Qed.

Lemma initialize_runs s :
  ∃ s',
    MCPManager.initialize s = (Ok tt, s')
    ∧ MCPManager.is_initialized (self s') = true
    ∧ MCPManager.endpoints (self s') = MCPManager.endpoints (self s)
    ∧ (MCPManager.is_initialized (self s) = false →
       (∀ service, is_Some (odict.get (MCPManager.endpoints (self s)) service) →
          ∃ conn, MCPManager.connections (self s') !! service = Some conn
                  ∧ probed conn
                  ∧ (service, MCPManager.endpoint conn) ∈ MCPManager.endpoints (self s))
       ∧ (∀ service, odict.get (MCPManager.endpoints (self s)) service = None →
            MCPManager.connections (self s') !! service
              = MCPManager.connections (self s) !! service)).
Proof.
  unfold MCPManager.initialize, mbind, M_bind, get_self. cbn.
  destruct (MCPManager.is_initialized (self s)) eqn:Hinit.
  { exists s. repeat split; auto. discriminate. }
  unfold logger, modify_self. cbn.
  destruct (probes_cover (MCPManager.endpoints (self s))
              (mkSys (sys_env s) (sys_log s ++ [LogMcpInitializing])
                 (MCPManager.set_session
                    (Some (MCPManager.aiohttp_ClientSession false)) (self s))))
    as (s' & -> & _ & Hends & _ & Hframe & Hcover).
  cbn in Hends, Hframe, Hcover.
  eexists. split; [reflexivity|]. cbn. split; [reflexivity|]. split; [exact Hends|].
  intros _. split.
  - intros service [ep Hep]. apply (Hcover service ep). by apply odict_get_Some_In.
  - intros service Hnone. destruct (Hframe service) as [Hk|(conn & _ & _ & Hin)];
      [exact Hk|]. by apply odict_get_None_notin in Hin.
Qed.

(** X2.  [initialize] returns in every world, whatever the health
    requests do, and leaves the registry marked initialized.  When the
    registry was not initialized, every configured service then has an
    entry, recorded as "connected" or "error" with an endpoint configured
    for it, and the names that are not configured keep what they had. *)
Theorem initialize_probes_every_service s :
  ∃ s',
    MCPManager.initialize s = (Ok tt, s')
    ∧ MCPManager.is_initialized (self s') = true
    ∧ MCPManager.endpoints (self s') = MCPManager.endpoints (self s)
    ∧ (MCPManager.is_initialized (self s) = false →
       (∀ service, is_Some (odict.get (MCPManager.endpoints (self s)) service) →
          ∃ conn, MCPManager.connections (self s') !! service = Some conn
                  ∧ probed conn
                  ∧ (service, MCPManager.endpoint conn) ∈ MCPManager.endpoints (self s))
       ∧ (∀ service, odict.get (MCPManager.endpoints (self s)) service = None →
            MCPManager.connections (self s') !! service
              = MCPManager.connections (self s) !! service)).
Proof. exact (initialize_runs s). Qed.

(** X3.  [initialize] is idempotent: called again on the registry that a
    first call has left, it returns at once, with no request, no log
    record and no change. *)
Theorem initialize_twice_is_once s :
  MCPManager.initialize (run MCPManager.initialize s)
    = (Ok tt, run MCPManager.initialize s).
Proof.
  destruct (initialize_runs s) as (s' & Hrun & Hinit & _).
  unfold run. rewrite Hrun. cbn.
  unfold MCPManager.initialize, mbind, M_bind, get_self. cbn. rewrite Hinit. reflexivity.
Qed.

(** X4.  [cleanup] returns in every state.  It closes the session, forgets
    every connection and marks the registry as not initialized, but keeps
    the configured endpoints; afterwards no service is available, and
    [Send] to any service, configured or not, fails with [ServiceUnknown]
    without any request. *)
Theorem cleanup_forgets_connections s service message_data :
  ∃ s',
    MCPManager.cleanup s = (Ok tt, s')
    ∧ MCPManager.connections (self s') = ∅
    ∧ MCPManager.is_initialized (self s') = false
    ∧ MCPManager.endpoints (self s') = MCPManager.endpoints (self s)
    ∧ MCPManager.session (self s') = MCPManager.close <$> MCPManager.session (self s)
    ∧ MCPManager.get_available_services (self s') = ∅
    ∧ MCPManager.send_message service message_data s' = (Raise (ServiceUnknown service), s').
Proof.
  eexists. split; [reflexivity|]. cbn. repeat split.
Qed.

Lemma send_message_returned s service message_data result s' :
  MCPManager.send_message service message_data s = (Ok result, s') →
  ∃ conn response env1,
    MCPManager.connections (self s) !! service = Some conn
    ∧ MCPManager.status conn = "connected"
    ∧ session_post (MCPManager.endpoint conn +:+ "/send") message_data (sys_env s)
      = (Ok response, env1)
    ∧ resp_status response = 200
    ∧ resp_json response env1 = (Ok result, sys_env s')
    ∧ self s' = self s
    ∧ sys_log s' = sys_log s ++ [LogMessageSent service].
Proof.
  unfold MCPManager.send_message, mbind, M_bind, get_self. cbn.
  destruct (MCPManager.connections (self s) !! service) as [conn|] eqn:Hc;
    [|discriminate].
  destruct (String.eqb (MCPManager.status conn) "connected") eqn:Hst; cbn;
    [|discriminate].
  apply String.eqb_eq in Hst.
  unfold try_except, mbind, M_bind, MCPManager.post, raise, ext, logger, mret, M_ret.
  destruct (MCPManager.session (self s)) as [c|]; cbn; [|discriminate].
  destruct (MCPManager.closed c); cbn; [discriminate|].
  destruct (session_post _ message_data (sys_env s)) as [[response|e] env1] eqn:Hpost;
    cbn; [|discriminate].
  destruct (resp_status response =? 200) eqn:H200; cbn.
  - destruct (resp_json response env1) as [[r|e] env2] eqn:Hjson; cbn; [|discriminate].
    intros [= <- <-]. exists conn, response, env1. cbn.
    apply Z.eqb_eq in H200. repeat split; auto.
  - destruct (resp_text response env1) as [[r|e] env2]; cbn; discriminate.
Qed.

(** X5.  [Send] returns a value only for a service that is recorded as
    connected, only when the POST to the [/send] path of its recorded
    endpoint is answered with status 200, and the value is then the JSON
    body of the answer; the registry is unchanged and the log gains the one
    record of the message sent. *)
Theorem send_message_returns_the_body s service message_data result s' :
  MCPManager.send_message service message_data s = (Ok result, s') →
  ∃ conn response env1,
    MCPManager.connections (self s) !! service = Some conn
    ∧ MCPManager.status conn = "connected"
    ∧ session_post (MCPManager.endpoint conn +:+ "/send") message_data (sys_env s)
      = (Ok response, env1)
    ∧ resp_status response = 200
    ∧ resp_json response env1 = (Ok result, sys_env s')
    ∧ self s' = self s
    ∧ sys_log s' = sys_log s ++ [LogMessageSent service].
Proof. apply send_message_returned. Qed.

(** X6.  An answer with a status other than 200 makes [Send] fail with
    the text of the answer; the failure is logged twice, once where it is
    detected and once by the handler that re-raises it; the registry is
    unchanged. *)
Theorem send_message_upstream_error s service message_data conn c response env1 text env2 :
  MCPManager.connections (self s) !! service = Some conn →
  MCPManager.status conn = "connected" →
  MCPManager.session (self s) = Some c → MCPManager.closed c = false →
  session_post (MCPManager.endpoint conn +:+ "/send") message_data (sys_env s)
    = (Ok response, env1) →
  resp_status response ≠ 200 →
  resp_text response env1 = (Ok text, env2) →
  let e := mkExn Exception [Lit "Failed to send message: "; Lit text] in
  MCPManager.send_message service message_data s
    = (Raise e, mkSys env2
                  (sys_log s ++ [LogSendFailed service text; LogSendError service e])
                  (self s)).
Proof.
  intros Hc Hst Hsess Hopen Hpost H200 Htext e.
  unfold MCPManager.send_message, mbind, M_bind, get_self. cbn. rewrite Hc, Hst. cbn.
  unfold try_except, mbind, M_bind, MCPManager.post, raise, ext, logger, mret, M_ret.
  rewrite Hsess. cbn. rewrite Hopen. cbn. rewrite Hpost. cbn.
  apply Z.eqb_neq in H200. rewrite H200. cbn. rewrite Htext. cbn.
  by rewrite <- app_assoc.
Qed.

(** X7.  [get_available_services] lists exactly the services for which
    [Send] passes its two checks: for a service that is not listed, [Send]
    fails with [ServiceUnknown] or [ServiceUnavailable] and does nothing
    else, and a [Send] that returns was for a listed service. *)
Theorem available_services_are_the_sendable s service message_data :
  (service ∈ MCPManager.get_available_services (self s)
   ↔ ∃ conn, MCPManager.connections (self s) !! service = Some conn
             ∧ MCPManager.status conn = "connected")
  ∧ (service ∉ MCPManager.get_available_services (self s) →
     MCPManager.send_message service message_data s = (Raise (ServiceUnknown service), s)
     ∨ MCPManager.send_message service message_data s
       = (Raise (ServiceUnavailable service), s))
  ∧ (∀ result s', MCPManager.send_message service message_data s = (Ok result, s') →
       service ∈ MCPManager.get_available_services (self s)).
Proof.
  assert (Hiff : service ∈ MCPManager.get_available_services (self s)
            ↔ ∃ conn, MCPManager.connections (self s) !! service = Some conn
                      ∧ MCPManager.status conn = "connected").
  { unfold MCPManager.get_available_services. rewrite elem_of_dom. split.
    - intros [conn Hconn]. apply map_lookup_filter_Some in Hconn as [Hc Hst]. eauto.
    - intros (conn & Hc & Hst). exists conn. by apply map_lookup_filter_Some. }
  split; [exact Hiff|]. split.
  - intros Hnot.
    unfold MCPManager.send_message, mbind, M_bind, get_self. cbn.
    destruct (MCPManager.connections (self s) !! service) as [conn|] eqn:Hc;
      [|by left].
    destruct (String.eqb (MCPManager.status conn) "connected") eqn:Hst; cbn;
      [|by right].
    apply String.eqb_eq in Hst. exfalso. apply Hnot, Hiff. eauto.
  - intros result s' Hrun.
    apply send_message_returned in Hrun as (conn & _ & _ & Hc & Hst & _).
    apply Hiff. eauto.
Qed.
End RegistryMore.

(** ** More of the manager *)
Section ManagerMore.
Context {Env Agent : Type} `{!Runtime Env} `{!AgentClasses Env Agent}.

Abbreviation mstate := (Sys Env (AgentManager.t Agent)).
Implicit Types (s : mstate) (task : AgentTask.t) (task_id : string).

(** Splits the run of a sequence of steps at its first step. *)
Ltac run_step H :=
  match type of H with
  | context [match ?x with _ => _ end] =>
      lazymatch x with
      | (_, _) => fail
      | _ => destruct x as [[?|?] ?] eqn:?; cbv beta iota in H; try discriminate H
      end
  end.

(** Reads the equations that [run_step] leaves. *)
Ltac read_steps :=
  repeat match goal with
  | H : logger _ _ = _ |- _ =>
      unfold logger in H; first [discriminate H | injection H as <- <-]
  | H : modify_self _ _ = _ |- _ =>
      unfold modify_self in H; first [discriminate H | injection H as <- <-]
  | H : get_self _ = _ |- _ =>
      unfold get_self in H; first [discriminate H | injection H as <- <-]
  | H : mret _ _ = _ |- _ =>
      unfold mret, M_ret in H; first [discriminate H | injection H as <- <-]
  end.

Lemma keeps_manager_refl s : keeps_manager s s.
Proof. by repeat split. Qed.

Lemma keeps_manager_trans s1 s2 s3 :
  keeps_manager s1 s2 → keeps_manager s2 s3 → keeps_manager s1 s3.
Proof. intros (? & ? & ?) (? & ? & ?). repeat split; congruence. Qed.

Lemma register_keeps agent_type s out s' :
  AgentManager.register agent_type s = (out, s') → keeps_manager s s'.
Proof.
  unfold AgentManager.register, mbind, M_bind, ext, modify_self.
  destruct (agent_new agent_type mcp_manager_ref (sys_env s)) as [[a|e] env1]; cbn;
    intros [= <- <-]; by repeat split.
Qed.

(** The loops of [initialize] and [cleanup] over [self.agents.items()]. *)
Lemma agents_loop_keeps (method : Agent → Ext Env Agent) (record : AgentType → LogRecord)
    (items : odict.t AgentType Agent) s out s' :
  for_each items (λ '(agent_type, agent),
    agent' ← ext (method agent);
    modify_self (AgentManager.set_agents (odict.set agent_type agent'));;
    logger (record agent_type)) s = (out, s') →
  keeps_manager s s'.
Proof.
  revert s. induction items as [|[agent_type agent] items IH]; intros s.
  - intros [= <- <-]. apply keeps_manager_refl.
  - cbn [for_each]. unfold mbind at 1, M_bind at 1.
    unfold mbind at 1, M_bind at 1, ext at 1.
    destruct (method agent (sys_env s)) as [[a|e] env1]; cbn.
    + intros Hrun. apply IH in Hrun. eapply keeps_manager_trans; [|exact Hrun].
      by repeat split.
    + intros [= <- <-]. by repeat split.
Qed.

Lemma odict_set_keys {V} (k : AgentType) (v : V) (d : odict.t AgentType V) :
  is_Some (odict.get d k) → odict.keys (odict.set k v d) = odict.keys d.
Proof.
  induction d as [|[k' v'] d IH]; cbn; [by intros [? ?]|].
  destruct (decide (k = k')) as [->|Hne]; cbn; [done|].
  intros Hin. f_equal. by apply IH.
Qed.

Lemma odict_get_set_eq {V} (k : AgentType) (v : V) (d : odict.t AgentType V) :
  odict.get (odict.set k v d) k = Some v.
Proof.
  induction d as [|[k' v'] d IH]; cbn.
  - by rewrite decide_True.
  - destruct (decide (k = k')) as [->|Hne]; cbn.
    + by rewrite decide_True.
    + by rewrite decide_False.
Qed.

Lemma odict_get_set_ne {V} (k k0 : AgentType) (v : V) (d : odict.t AgentType V) :
  k ≠ k0 → odict.get (odict.set k v d) k0 = odict.get d k0.
Proof.
  intros Hne. induction d as [|[k' v'] d IH]; cbn.
  - by rewrite decide_False.
  - destruct (decide (k = k')) as [->|Hne']; cbn.
    + by rewrite !decide_False.
    + destruct (decide (k0 = k')); [done|]. exact IH.
Qed.

(** The loops keep the keys of [self.agents], in their order. *)
Lemma agents_loop_keys (method : Agent → Ext Env Agent) (record : AgentType → LogRecord)
    (items : odict.t AgentType Agent) s out s' :
  (∀ agent_type agent, (agent_type, agent) ∈ items →
     is_Some (odict.get (AgentManager.agents (self s)) agent_type)) →
  for_each items (λ '(agent_type, agent),
    agent' ← ext (method agent);
    modify_self (AgentManager.set_agents (odict.set agent_type agent'));;
    logger (record agent_type)) s = (out, s') →
  odict.keys (AgentManager.agents (self s')) = odict.keys (AgentManager.agents (self s)).
Proof.
  revert s. induction items as [|[agent_type agent] items IH]; intros s Hin.
  - by intros [= <- <-].
  - cbn [for_each]. unfold mbind at 1, M_bind at 1.
    unfold mbind at 1, M_bind at 1, ext at 1.
    destruct (method agent (sys_env s)) as [[a|e] env1]; cbn.
    + intros Hrun. apply IH in Hrun.
      * rewrite Hrun. cbn. apply odict_set_keys. apply (Hin agent_type agent). by left.
      * intros t0 a0 Hin0. cbn.
        destruct (decide (agent_type = t0)) as [<-|Hne].
        -- rewrite odict_get_set_eq. eauto.
        -- rewrite odict_get_set_ne by done. apply (Hin t0 a0). by right.
    + by intros [= <- <-].
Qed.

Lemma odict_In_get {V} (d : odict.t AgentType V) (k : AgentType) (v : V) :
  (k, v) ∈ d → is_Some (odict.get d k).
Proof.
  induction d as [|[k' v'] d IH]; intros Hin; [by apply elem_of_nil in Hin|].
  cbn. destruct (decide (k = k')); [eauto|].
  apply elem_of_cons in Hin as [Heq|Hin]; [congruence|auto].
Qed.

Lemma on_mcp_manager_keeps {A} (method : M (Sys Env MCPManager.t) A) s out s' :
  AgentManager.on_mcp_manager method s = (out, s') →
  store s' = store s
  ∧ AgentManager.is_initialized (self s') = AgentManager.is_initialized (self s)
  ∧ AgentManager.agents (self s') = AgentManager.agents (self s).
Proof.
  unfold AgentManager.on_mcp_manager.
  destruct (AgentManager.mcp_manager (self s)) as [mcp|]; [|by intros [= <- <-]].
  destruct (method _) as [r s1]. by intros [= <- <-].
Qed.

Lemma manager_initialize_split s out s' :
  AgentManager.is_initialized (self s) = false →
  AgentManager.initialize s = (out, s') →
  store s' = store s
  ∧ AgentManager.is_initialized (self s') = (if out is Ok _ then true else false).
Proof.
  intros Hinit. unfold AgentManager.initialize.
  unfold mbind at 1, M_bind at 1, get_self at 1. cbv beta iota. cbn [self].
  rewrite Hinit. unfold mbind, M_bind. intros Hrun.
  repeat run_step Hrun; read_steps;
    repeat match goal with
    | H : AgentManager.register _ _ = _ |- _ =>
        apply register_keeps in H as (? & ? & ?)
    | H : AgentManager.on_mcp_manager _ _ = _ |- _ =>
        apply on_mcp_manager_keeps in H as (? & ? & ?)
    | H : for_each _ _ _ = _ |- _ =>
        apply (agents_loop_keeps agent_initialize LogAgentInitialized) in H
          as (? & ? & ?)
    end;
    try (injection Hrun as <- <-);
    unfold store in *; cbn in *; split; congruence.
Qed.

(** X8.  [Initialize] of the manager is idempotent: once a call has
    returned, the manager is marked initialized, and a further call
    returns at once without constructing, initializing or logging
    anything.  A call that raises leaves the manager not marked
    initialized.  No call touches the tasks. *)
Theorem manager_initialize_twice_is_once s out s1 :
  AgentManager.initialize s = (out, s1) →
  store s1 = store s
  ∧ match out with
    | Ok _ =>
        AgentManager.is_initialized (self s1) = true
        ∧ AgentManager.initialize s1 = (Ok tt, s1)
    | Raise _ =>
        AgentManager.is_initialized (self s) = false
        ∧ AgentManager.is_initialized (self s1) = false
    end.
Proof.
  intros Hrun.
  assert (Hagain : AgentManager.is_initialized (self s1) = true →
                   AgentManager.initialize s1 = (Ok tt, s1)).
  { intros Hinit. unfold AgentManager.initialize.
    unfold mbind at 1, M_bind at 1, get_self at 1. cbn. by rewrite Hinit. }
  destruct (AgentManager.is_initialized (self s)) eqn:Hinit.
  - pose proof Hrun as Hrun'. unfold AgentManager.initialize in Hrun'.
    unfold mbind at 1, M_bind at 1, get_self at 1 in Hrun'. cbn in Hrun'.
    rewrite Hinit in Hrun'. injection Hrun' as <- <-. auto.
  - destruct (manager_initialize_split s out s1 Hinit Hrun) as [Hstore Hflag].
    split; [exact Hstore|]. destruct out; auto.
Qed.

Lemma manager_cleanup_split s out s' :
  AgentManager.cleanup s = (out, s') →
  store s' = store s
  ∧ odict.keys (AgentManager.agents (self s')) = odict.keys (AgentManager.agents (self s))
  ∧ match out with
    | Ok _ =>
        AgentManager.is_initialized (self s') = false
        ∧ match AgentManager.mcp_manager (self s) with
          | Some mcp =>
              ∃ mcp', AgentManager.mcp_manager (self s') = Some mcp'
                      ∧ MCPManager.connections mcp' = ∅
                      ∧ MCPManager.is_initialized mcp' = false
                      ∧ MCPManager.session mcp' = MCPManager.close <$> MCPManager.session mcp
          | None => AgentManager.mcp_manager (self s') = None
          end
    | Raise _ =>
        AgentManager.is_initialized (self s') = AgentManager.is_initialized (self s)
        ∧ AgentManager.mcp_manager (self s') = AgentManager.mcp_manager (self s)
    end.
Proof.
  unfold AgentManager.cleanup.
  unfold mbind at 1, M_bind at 1, logger at 1. cbv beta iota.
  unfold mbind at 1, M_bind at 1, get_self at 1. cbv beta iota. cbn [self].
  unfold mbind at 1, M_bind at 1.
  match goal with
  | |- context [for_each ?l ?f ?st] =>
      destruct (for_each l f st) as [[[]|e] s1] eqn:Hloop;
      pose proof (agents_loop_keeps agent_cleanup LogAgentCleanedUp _ _ _ _ Hloop)
        as (Hst & Hinit & Hmcp);
      pose proof (agents_loop_keys agent_cleanup LogAgentCleanedUp _ _ _ _
                    (λ t a Hin, odict_In_get _ t a Hin) Hloop) as Hkeys
  end; cbn in Hst, Hinit, Hmcp, Hkeys.
  2:{ intros [= <- <-]. auto. }
  unfold mbind at 1, M_bind at 1, get_self at 1. cbv beta iota. cbn [self].
  rewrite Hmcp.
  destruct (AgentManager.mcp_manager (self s)) as [mcp|] eqn:Hm.
  - unfold mbind, M_bind, AgentManager.on_mcp_manager. rewrite Hmcp. cbn.
    intros [= <- <-]. cbn. split; [exact Hst|]. split; [exact Hkeys|].
    split; [reflexivity|]. eexists. split; [reflexivity|]. cbn. auto.
  - unfold mbind, M_bind. cbn. intros [= <- <-]. cbn. auto.
Qed.

(** X9.  [Cleanup] of the manager keeps every task and every registered
    agent type.  When it returns, the manager is marked as not
    initialized and its registry, if it has one, has been cleaned up.
    When the cleanup of an agent raises, [Cleanup] raises at once: the
    registry is not cleaned up and the manager stays marked as it was. *)
Theorem manager_cleanup_outcome s out s' :
  AgentManager.cleanup s = (out, s') →
  store s' = store s
  ∧ odict.keys (AgentManager.agents (self s')) = odict.keys (AgentManager.agents (self s))
  ∧ match out with
    | Ok _ =>
        AgentManager.is_initialized (self s') = false
        ∧ match AgentManager.mcp_manager (self s) with
          | Some mcp =>
              ∃ mcp', AgentManager.mcp_manager (self s') = Some mcp'
                      ∧ MCPManager.connections mcp' = ∅
                      ∧ MCPManager.is_initialized mcp' = false
                      ∧ MCPManager.session mcp' = MCPManager.close <$> MCPManager.session mcp
          | None => AgentManager.mcp_manager (self s') = None
          end
    | Raise _ =>
        AgentManager.is_initialized (self s') = AgentManager.is_initialized (self s)
        ∧ AgentManager.mcp_manager (self s') = AgentManager.mcp_manager (self s)
    end.
Proof. apply manager_cleanup_split. Qed.

Lemma create_task_grows s agent_type project_id task_data priority out s' :
  AgentManager.create_task agent_type project_id task_data priority s = (out, s') →
  ∃ task_id task,
    out = Ok task_id
    ∧ store s' = <[task_id := task]> (store s)
    ∧ AgentTask.id task = task_id
    ∧ AgentManager.agents (self s') = AgentManager.agents (self s).
Proof.
  rewrite create_task_run.
  destruct (datetime_now (sys_env s)) as [t0 env0].
  destruct (datetime_now env0) as [t1 env1]. intros [= <- <-].
  eexists _, _. repeat split.
Qed.

(** [execute_task] writes to one task only, and only to its status, its
    completion time, its result and its error. *)
Lemma execute_task_frame s task_id out s' :
  AgentManager.execute_task task_id s = (out, s') →
  AgentManager.agents (self s') = AgentManager.agents (self s)
  ∧ AgentManager.mcp_manager (self s') = AgentManager.mcp_manager (self s)
  ∧ AgentManager.is_initialized (self s') = AgentManager.is_initialized (self s)
  ∧ (∀ other, other ≠ task_id → store s' !! other = store s !! other)
  ∧ match store s !! task_id with
    | Some task => ∃ task', store s' !! task_id = Some task' ∧ same_creation task task'
    | None => store s' !! task_id = None
    end.
Proof.
  destruct (store s !! task_id) as [task|] eqn:Hk.
  2:{ rewrite (execute_task_no_task s task_id Hk). intros [= <- <-]. auto. }
  destruct (odict.get (AgentManager.agents (self s)) (AgentTask.agent_type task))
    as [agent|] eqn:Ha.
  2:{ rewrite (execute_task_no_agent s task_id task Hk Ha). intros [= <- <-].
      repeat split; auto. exists task. by repeat split. }
  rewrite (execute_task_run s task_id task agent Hk Ha).
  destruct (agent_execute_task agent (AgentTask.task_data task) (sys_env s))
    as [[r|e] env1].
  - destruct (datetime_now env1) as [now env2]. intros [= <- <-]. cbn.
    repeat split; auto.
    + intros other Hne. unfold store; cbn. by rewrite lookup_insert_ne.
    + eexists. unfold store; cbn. rewrite lookup_insert_eq. split; [reflexivity|].
      by repeat split.
  - intros [= <- <-]. cbn. repeat split; auto.
    + intros other Hne. unfold store; cbn. by rewrite lookup_insert_ne.
    + eexists. unfold store; cbn. rewrite lookup_insert_eq. split; [reflexivity|].
      by repeat split.
Qed.

(** X10.  [ExecuteTask] writes to the executed task only, and only to its
    status, completion time, result and error: the id, agent type,
    project, payload, priority and creation time of the task, every other
    task, the registered agents and the registry are as before, whether
    the call returns or raises. *)
Theorem execute_task_writes_one_task s task_id out s' :
  AgentManager.execute_task task_id s = (out, s') →
  AgentManager.agents (self s') = AgentManager.agents (self s)
  ∧ AgentManager.mcp_manager (self s') = AgentManager.mcp_manager (self s)
  ∧ AgentManager.is_initialized (self s') = AgentManager.is_initialized (self s)
  ∧ (∀ other, other ≠ task_id → store s' !! other = store s !! other)
  ∧ match store s !! task_id with
    | Some task => ∃ task', store s' !! task_id = Some task' ∧ same_creation task task'
    | None => store s' !! task_id = None
    end.
Proof. apply execute_task_frame. Qed.

Lemma execute_task_dom s task_id out s' :
  AgentManager.execute_task task_id s = (out, s') → dom (store s') = dom (store s).
Proof.
  intros Hrun. apply execute_task_frame in Hrun as (_ & _ & _ & Hother & Hsame).
  apply set_eq. intros k. rewrite !elem_of_dom.
  destruct (decide (k = task_id)) as [->|Hne]; [|by rewrite Hother].
  destruct (store s !! task_id) as [task|].
  - destruct Hsame as (task' & -> & _). split; eauto.
  - by rewrite Hsame.
Qed.

Lemma execute_task_ids s task_id out s' :
  ids_consistent (store s) →
  AgentManager.execute_task task_id s = (out, s') → ids_consistent (store s').
Proof.
  intros Hids Hrun. apply execute_task_frame in Hrun as (_ & _ & _ & Hother & Hsame).
  intros k task' Hk. destruct (decide (k = task_id)) as [->|Hne].
  - destruct (store s !! task_id) as [task|] eqn:Hold; [|congruence].
    destruct Hsame as (task'' & Hk' & Hid & _). rewrite Hk in Hk'.
    injection Hk' as <-. rewrite Hid. by apply Hids.
  - rewrite Hother in Hk by done. by apply Hids.
Qed.

Lemma workflow_stage_store key t project_id workflow_data results s out s' :
  AgentManager.workflow_stage key t project_id workflow_data results s = (out, s') →
  dom (store s) ⊆ dom (store s')
  ∧ (ids_consistent (store s) → ids_consistent (store s')).
Proof.
  unfold AgentManager.workflow_stage.
  destruct (workflow_data !! key) as [stage_data|]; [|by intros [= <- <-]].
  unfold mbind, M_bind.
  destruct (AgentManager.create_task t project_id stage_data "medium" s)
    as [r1 s1] eqn:Hc.
  apply create_task_grows in Hc as (id1 & task1 & -> & Hst1 & Hid1 & _).
  destruct (AgentManager.execute_task id1 s1) as [[r|e] s2] eqn:He;
    pose proof (execute_task_dom _ _ _ _ He) as Hdom;
    pose proof (λ H, execute_task_ids _ _ _ _ H He) as Hids;
    intros [= <- <-]; (split; [rewrite Hdom, Hst1, dom_insert_L; set_solver|]);
    intros Hcons; apply Hids; rewrite Hst1; intros k task' Hk;
    (destruct (decide (id1 = k)) as [<-|Hne];
      [rewrite lookup_insert_eq in Hk; by injection Hk as <-
      |rewrite lookup_insert_ne in Hk by done; by apply Hcons]).
Qed.

Lemma run_stages_store stages project_id workflow_data results s out s' :
  run_stages stages project_id workflow_data results s = (out, s') →
  dom (store s) ⊆ dom (store s')
  ∧ (ids_consistent (store s) → ids_consistent (store s')).
Proof.
  revert results s. induction stages as [|t stages IH]; intros results s.
  - by intros [= <- <-].
  - cbn [run_stages]. unfold mbind, M_bind.
    destruct (AgentManager.workflow_stage (AgentType_value t) t project_id workflow_data
                results s) as [[r|e] s1] eqn:Hst;
      apply workflow_stage_store in Hst as [Hdom Hids].
    + intros Hrun. apply IH in Hrun as [Hdom' Hids']. split; [set_solver|auto].
    + by intros [= <- <-].
Qed.

Lemma execute_workflow_store project_id workflow_data s out s' :
  AgentManager.execute_workflow project_id workflow_data s = (out, s') →
  dom (store s) ⊆ dom (store s')
  ∧ (ids_consistent (store s) → ids_consistent (store s')).
Proof.
  rewrite execute_workflow_run_stages.
  destruct (run_stages stage_order project_id workflow_data ∅ (started project_id s))
    as [[r|e] s1] eqn:Hst; apply run_stages_store in Hst; by intros [= <- <-].
Qed.

(** X11.  No operation of the manager removes a task: [Initialize] and
    [Cleanup] leave the store as it is, [ExecuteTask] keeps its set of
    ids, and [CreateTask] and [ExecuteWorkflow] only add ids to it,
    whether they return or raise. *)
Theorem tasks_are_never_removed s :
  (∀ out s', AgentManager.initialize s = (out, s') → store s' = store s)
  ∧ (∀ out s', AgentManager.cleanup s = (out, s') → store s' = store s)
  ∧ (∀ agent_type project_id task_data priority out s',
       AgentManager.create_task agent_type project_id task_data priority s = (out, s') →
       dom (store s) ⊆ dom (store s'))
  ∧ (∀ task_id out s',
       AgentManager.execute_task task_id s = (out, s') → dom (store s') = dom (store s))
  ∧ (∀ project_id workflow_data out s',
       AgentManager.execute_workflow project_id workflow_data s = (out, s') →
       dom (store s) ⊆ dom (store s')).
Proof.
  split; [|split; [|split; [|split]]].
  - intros out s' Hrun. destruct (AgentManager.is_initialized (self s)) eqn:Hinit.
    + unfold AgentManager.initialize in Hrun.
      unfold mbind at 1, M_bind at 1, get_self at 1 in Hrun. cbn in Hrun.
      rewrite Hinit in Hrun. by injection Hrun as <- <-.
    + by destruct (manager_initialize_split s out s' Hinit Hrun).
  - intros out s' Hrun. by apply manager_cleanup_split in Hrun as [? _].
  - intros agent_type project_id task_data priority out s' Hrun.
    apply create_task_grows in Hrun as (id1 & task1 & _ & -> & _).
    rewrite dom_insert_L. set_solver.
  - intros task_id out s'. apply execute_task_dom.
  - intros project_id workflow_data out s' Hrun.
    by apply execute_workflow_store in Hrun as [? _].
Qed.

(** X12.  Every task is stored under the id that it carries: the empty
    store has this property, and [CreateTask], [ExecuteTask] and
    [ExecuteWorkflow] keep it, whether they return or raise; the status
    view that [GetTaskStatus] gives for an id then carries that id. *)
Theorem tasks_are_stored_under_their_id s :
  ids_consistent (store s) →
  (∀ agent_type project_id task_data priority out s',
     AgentManager.create_task agent_type project_id task_data priority s = (out, s') →
     ids_consistent (store s'))
  ∧ (∀ task_id out s',
       AgentManager.execute_task task_id s = (out, s') → ids_consistent (store s'))
  ∧ (∀ project_id workflow_data out s',
       AgentManager.execute_workflow project_id workflow_data s = (out, s') →
       ids_consistent (store s'))
  ∧ (∀ task_id view,
       AgentManager.get_task_status (self s) task_id = Some view →
       TaskStatus.id view = task_id).
Proof.
  intros Hids. split; [|split; [|split]].
  - intros agent_type project_id task_data priority out s' Hrun.
    apply create_task_grows in Hrun as (id1 & task1 & _ & -> & Hid & _).
    intros k task' Hk. destruct (decide (id1 = k)) as [<-|Hne].
    + rewrite lookup_insert_eq in Hk. by injection Hk as <-.
    + rewrite lookup_insert_ne in Hk by done. by apply Hids.
  - intros task_id out s' Hrun. by apply (execute_task_ids s task_id out s').
  - intros project_id workflow_data out s' Hrun.
    apply execute_workflow_store in Hrun as [_ Hkeep]. auto.
  - intros task_id view. unfold AgentManager.get_task_status.
    destruct (AgentManager.tasks (self s) !! task_id) as [task|] eqn:Hk; [|discriminate].
    intros [= <-]. cbn. by apply Hids.
Qed.

(** X13.  [CreateTask] always returns, and [GetTaskStatus] on the id it
    returns then shows the new task: that id, the value of the agent
    type, status "pending", the creation time, and no completion time,
    error or result. *)
Theorem create_task_then_status s agent_type project_id task_data priority :
  ∃ task_id s' now,
    AgentManager.create_task agent_type project_id task_data priority s = (Ok task_id, s')
    ∧ AgentManager.get_task_status (self s') task_id
      = Some (TaskStatus.mk task_id (AgentType_value agent_type) "pending"
                (Some (isoformat now)) None None VNone)
    ∧ AgentManager.agents (self s') = AgentManager.agents (self s).
Proof.
  rewrite create_task_run.
  destruct (datetime_now (sys_env s)) as [t0 env0].
  destruct (datetime_now env0) as [t1 env1].
  eexists _, _, t1. split; [reflexivity|].
  unfold AgentManager.get_task_status. cbn. rewrite lookup_insert_eq. auto.
Qed.

Lemma filter_everything {A} (P : A → Prop) `{∀ x, Decision (P x)} (l : list A) :
  (∀ x, P x) → filter P l = l.
Proof.
  intros Hall. induction l as [|x l IH]; [reflexivity|].
  rewrite filter_cons_True by apply Hall. by rewrite IH.
Qed.

(** X14.  When every task is stored under its own id, [get_all_tasks]
    lists one status view per task that passes the project filter and
    nothing else: a view is listed exactly when it is the view of a stored
    task of the project (of any project when no project is given), no
    element of the list is [None], and without a project the list is as
    long as the store is large. *)
Theorem get_all_tasks_lists_the_project (m : AgentManager.t Agent) (project_id : option Z) :
  ids_consistent (AgentManager.tasks m) →
  (∀ view,
     Some view ∈ AgentManager.get_all_tasks m project_id
     ↔ ∃ task_id task,
         AgentManager.tasks m !! task_id = Some task
         ∧ AgentManager.in_project project_id task
         ∧ view = view_of task)
  ∧ (None ∉ AgentManager.get_all_tasks m project_id)
  ∧ length (AgentManager.get_all_tasks m None) = size (AgentManager.tasks m).
Proof.
  intros Hids.
  assert (Hview : ∀ task_id task, AgentManager.tasks m !! task_id = Some task →
            AgentManager.get_task_status m (AgentTask.id task) = Some (view_of task)).
  { intros task_id task Hk. unfold AgentManager.get_task_status.
    rewrite (Hids task_id task Hk), Hk. reflexivity. }
  assert (Hlisted : ∀ o, o ∈ AgentManager.get_all_tasks m project_id ↔
            ∃ task_id task, AgentManager.tasks m !! task_id = Some task
              ∧ AgentManager.in_project project_id task ∧ o = Some (view_of task)).
  { intros o. unfold AgentManager.get_all_tasks. rewrite list_elem_of_fmap. split.
    - intros (task & -> & Hin). apply list_elem_of_filter in Hin as [Hp Hin].
      apply list_elem_of_fmap in Hin as ([k task'] & -> & Hin).
      apply elem_of_map_to_list in Hin. exists k, task'. cbn. eauto.
    - intros (k & task & Hk & Hp & ->). exists task. split; [by rewrite (Hview k)|].
      apply list_elem_of_filter. split; [exact Hp|].
      apply list_elem_of_fmap. exists (k, task). split; [done|].
      by apply elem_of_map_to_list. }
  split; [|split].
  - intros view. rewrite Hlisted. split.
    + intros (k & task & Hk & Hp & [= ->]). eauto.
    + intros (k & task & Hk & Hp & ->). eauto.
  - intros Hnone. apply Hlisted in Hnone as (k & task & _ & _ & Hno). discriminate.
  - unfold AgentManager.get_all_tasks. rewrite length_fmap.
    rewrite filter_everything by (intros task; by left).
    by rewrite length_fmap, length_map_to_list.
Qed.

Lemma workflow_stage_no_agent key t project_id workflow_data results s stage_data :
  workflow_data !! key = Some stage_data →
  odict.get (AgentManager.agents (self s)) t = None →
  ∃ task_id task env',
    AgentManager.workflow_stage key t project_id workflow_data results s =
      (Raise (AgentUnavailable t),
       mkSys env' (sys_log s ++ [LogTaskCreated task_id t])
         (with_tasks (<[task_id := task]> (store s)) (self s)))
    ∧ AgentTask.agent_type task = t
    ∧ AgentTask.status task = "pending"
    ∧ AgentTask.task_data task = stage_data.
Proof.
  intros Hk Ha.
  pose proof (create_task_run s t project_id stage_data "medium") as Hc.
  destruct (datetime_now (sys_env s)) as [t0 env0].
  destruct (datetime_now env0) as [t1 env1]. cbn zeta in Hc.
  set (task_id := task_id_at t project_id t0) in *.
  set (task := pending_task task_id t project_id stage_data "medium" t1) in *.
  set (s1 := mkSys env1 _ _) in Hc.
  assert (Hs1 : store s1 !! task_id = Some task) by apply lookup_insert_eq.
  exists task_id, task, env1. split; [|by repeat split].
  unfold AgentManager.workflow_stage. rewrite Hk. unfold mbind, M_bind. rewrite Hc.
  by rewrite (execute_task_no_agent s1 task_id task Hs1 Ha).
Qed.

Lemma run_stages_no_agents stages project_id workflow_data results s :
  AgentManager.agents (self s) = [] →
  match present_of workflow_data stages with
  | [] => run_stages stages project_id workflow_data results s = (Ok results, s)
  | t :: _ =>
      ∃ task_id task env',
        run_stages stages project_id workflow_data results s =
          (Raise (AgentUnavailable t),
           mkSys env' (sys_log s ++ [LogTaskCreated task_id t])
             (with_tasks (<[task_id := task]> (store s)) (self s)))
        ∧ AgentTask.agent_type task = t
        ∧ AgentTask.status task = "pending"
  end.
Proof.
  intros Hnone. induction stages as [|t stages IH]; [reflexivity|].
  unfold present_of in *. cbn [run_stages]. unfold mbind, M_bind.
  destruct (workflow_data !! AgentType_value t) as [stage_data|] eqn:Hk.
  - rewrite filter_cons_True by eauto.
    destruct (workflow_stage_no_agent (AgentType_value t) t project_id workflow_data
                results s stage_data Hk) as (task_id & task & env' & -> & Hty & Hst & _).
    { by rewrite Hnone. }
    exists task_id, task, env'. auto.
  - rewrite filter_cons_False by (rewrite Hk; by intros [? ?]).
    rewrite (workflow_stage_absent _ _ _ _ _ _ Hk). exact IH.
Qed.

(** X15.  On a manager without agents, as [AgentManager()] builds it,
    [ExecuteWorkflow] returns the empty map when the specification has no
    stage key; otherwise it fails with [AgentUnavailable] for the first
    stage present in the fixed order, having created the task of that
    stage, which stays "pending", and no other. *)
Theorem execute_workflow_without_agents project_id workflow_data s :
  AgentManager.agents (self s) = [] →
  match present_stages workflow_data with
  | [] =>
      AgentManager.execute_workflow project_id workflow_data s =
        (Ok ∅, mkSys (sys_env s)
                 (sys_log s ++ [LogWorkflowStarting project_id;
                                LogWorkflowCompleted project_id])
                 (self s))
  | t :: _ =>
      ∃ task_id task env',
        AgentManager.execute_workflow project_id workflow_data s =
          (Raise (AgentUnavailable t),
           mkSys env'
             (sys_log s ++ [LogWorkflowStarting project_id; LogTaskCreated task_id t])
             (with_tasks (<[task_id := task]> (store s)) (self s)))
        ∧ AgentTask.agent_type task = t
        ∧ AgentTask.status task = "pending"
  end.
Proof.
  intros Hnone. rewrite execute_workflow_run_stages.
  pose proof (run_stages_no_agents stage_order project_id workflow_data ∅
                (started project_id s) Hnone) as Hrun.
  unfold present_stages. unfold present_of in Hrun.
  destruct (filter _ stage_order) as [|t rest].
  - rewrite Hrun. unfold finished, started. cbn. by rewrite <- app_assoc.
  - destruct Hrun as (task_id & task & env' & -> & Hty & Hst).
    exists task_id, task, env'. unfold started. cbn. rewrite <- app_assoc. auto.
Qed.
End ManagerMore.

(** ** More of the requirements agent *)
Section RequirementsMore.
Context {Env : Type} `{!Runtime Env} `{!RequirementsAgent.Handlers Env}.

Implicit Types (a : RequirementsAgent.t) (env : Env).

(** X16.  The life cycle of the requirements agent.  [initialize], when
    it returns, leaves the agent initialized with the same registry
    reference, and is idempotent: a further call returns the same agent
    and does not touch the world.  Without a Gemini API key it always
    returns, loads no model and does not touch the world.  [cleanup]
    always returns, and after it [Execute] fails with the not-initialized
    error for every payload, before any dispatch. *)
Theorem requirements_agent_life_cycle a env :
  (∀ a' env', RequirementsAgent.initialize a env = (Ok a', env') →
     RequirementsAgent.is_initialized a' = true
     ∧ RequirementsAgent.mcp_manager a' = RequirementsAgent.mcp_manager a
     ∧ ∀ env2, RequirementsAgent.initialize a' env2 = (Ok a', env2))
  ∧ (GEMINI_API_KEY settings = None →
     RequirementsAgent.initialize a env
       = (Ok (if RequirementsAgent.is_initialized a then a
              else RequirementsAgent.mk (RequirementsAgent.mcp_manager a)
                     (RequirementsAgent.gemini_model a) true), env))
  ∧ ∃ a', RequirementsAgent.cleanup a env = (Ok a', env)
          ∧ RequirementsAgent.gemini_model a' = RequirementsAgent.gemini_model a
          ∧ ∀ task_data env2,
              RequirementsAgent.execute_task a' task_data env2
                = (Raise NotInitialized, env2).
Proof.
  split; [|split].
  - intros a' env'. unfold RequirementsAgent.initialize.
    destruct (RequirementsAgent.is_initialized a) eqn:Hinit.
    + intros [= <- <-]. rewrite Hinit. auto.
    + destruct (GEMINI_API_KEY settings) as [key|].
      * destruct (String.eqb key ""); [by intros [= <- <-]|].
        destruct (RequirementsAgent.genai_configure_and_load key _ env)
          as [[model|e] env1]; [|discriminate].
        by intros [= <- <-].
      * by intros [= <- <-].
  - intros Hkey. unfold RequirementsAgent.initialize. rewrite Hkey.
    by destruct (RequirementsAgent.is_initialized a).
  - eexists. split; [reflexivity|]. split; [reflexivity|]. reflexivity.
Qed.

(** X17.  A payload that is not a dictionary makes [Execute] of an
    initialized requirements agent fail at the lookup of the
    discriminator, with the [AttributeError] of the missing [get], before
    any handler runs; a dictionary never fails there. *)
Theorem execute_task_needs_a_dictionary a (task_data : pyval) env :
  RequirementsAgent.is_initialized a = true →
  match task_data with
  | VDict d =>
      RequirementsAgent.execute_task a task_data env
        = (Raise (UnknownTaskVariant (default (VStr "requirements_extraction")
                                        (d !! "analysis_type"))), env)
      ∨ handler_run a d env (RequirementsAgent.execute_task a task_data env)
  | _ => RequirementsAgent.execute_task a task_data env = (Raise (no_get task_data), env)
  end.
Proof.
  intros Hinit. unfold RequirementsAgent.execute_task, handler_run. rewrite Hinit.
  destruct task_data; try reflexivity. cbn.
  repeat (match goal with |- context [if ?b then _ else _] => destruct b end; auto).
Qed.

(** [_categorize_requirements], from any dictionary of counts. *)
Lemma categorize_from {float} (requirements : list (RequirementsAgent.Requirement float))
    (categories : gmap string Z) (c : string) :
  foldl (λ categories req,
           <[RequirementsAgent.category req :=
               default 0 (categories !! RequirementsAgent.category req) + 1]> categories)
        categories requirements !! c
  = if decide (count_category c requirements = 0) then categories !! c
    else Some (default 0 (categories !! c) + count_category c requirements).
Proof.
  revert categories. unfold count_category.
  induction requirements as [|req requirements IH]; intros categories; [done|].
  cbn [foldl]. rewrite IH.
  destruct (decide (RequirementsAgent.category req = c)) as [Hc|Hc].
  - rewrite filter_cons_True by done. rewrite Hc, lookup_insert_eq. cbn -[Z.of_nat Z.add].
    destruct (decide (Z.of_nat (length (filter _ requirements)) = 0)) as [Hz|Hz].
    + rewrite decide_False by lia. f_equal. lia.
    + rewrite decide_False by lia. f_equal. lia.
  - rewrite filter_cons_False by done. by rewrite lookup_insert_ne.
Qed.

(** X18.  [_categorize_requirements] counts the requirements by category:
    a category is a key of the result exactly when some requirement has
    it, and its value is then the number of requirements that have it. *)
Theorem categorize_requirements_counts {float}
    (requirements : list (RequirementsAgent.Requirement float)) (c : string) :
  RequirementsAgent._categorize_requirements requirements !! c
  = if decide (count_category c requirements = 0) then None
    else Some (count_category c requirements).
Proof.
  unfold RequirementsAgent._categorize_requirements. rewrite categorize_from.
  rewrite lookup_empty. cbn. destruct (decide _); [done|]. f_equal.
Qed.
End RequirementsMore.

(** ** The manager with the classes of the repository *)
Section RepoMore.
Context {Env : Type} `{!Runtime Env} `{!RequirementsAgent.Handlers Env}.

Abbreviation rstate := (Sys Env (AgentManager.t Repo.Agent)).
Implicit Types (s : rstate).

(** The first [initialize] of the registry of a manager. *)
Lemma on_fresh_registry s :
  ∃ env' registry_log mcp,
    AgentManager.on_mcp_manager MCPManager.initialize
      (mkSys (sys_env s) (sys_log s)
         (AgentManager.set_mcp_manager (Some MCPManager.__init__) (self s)))
    = (Ok tt, mkSys env' (sys_log s ++ registry_log)
                (AgentManager.set_mcp_manager (Some mcp) (self s)))
    ∧ MCPManager.is_initialized mcp = true.
Proof.
  destruct (initialize_first_run (sys_env s) (sys_log s))
    as (env' & registry_log & mcp & Hrun & _ & Hinit).
  exists env', registry_log, mcp. split; [|exact Hinit].
  unfold AgentManager.on_mcp_manager.
  cbn [self AgentManager.mcp_manager AgentManager.set_mcp_manager sys_env sys_log].
  rewrite Hrun. reflexivity.
Qed.

(** X19.  With the agent classes of the repository, [Initialize] of a
    manager that is not marked initialized never returns: in every world
    it raises the [TypeError] of the call [PlanningAgent(self.mcp_manager)],
    whose constructor takes no argument.  It has then brought up a
    registry and registered a requirements agent that is not initialized;
    the other agent types are as before, the tasks too, and the manager is
    still not marked initialized, so that the next call fails in the same
    way. *)
Theorem initialize_never_returns s :
  AgentManager.is_initialized (self s) = false →
  ∃ s',
    AgentManager.initialize s
      = (Raise (arity_error "PlanningAgent" "1 positional argument" "2 were"), s')
    ∧ AgentManager.is_initialized (self s') = false
    ∧ store s' = store s
    ∧ odict.get (AgentManager.agents (self s')) REQUIREMENTS
      = Some (Repo.Requirements (RequirementsAgent.mk mcp_manager_ref None false))
    ∧ (∀ t, t ≠ REQUIREMENTS →
         odict.get (AgentManager.agents (self s')) t
           = odict.get (AgentManager.agents (self s)) t)
    ∧ ∃ mcp, AgentManager.mcp_manager (self s') = Some mcp
             ∧ MCPManager.is_initialized mcp = true.
Proof.
  intros Hinit.
  destruct (on_fresh_registry
              (mkSys (sys_env s) (sys_log s ++ [LogManagerInitializing]) (self s)))
    as (env' & registry_log & mcp & Hrun & Hmcp).
  cbn [sys_env sys_log self] in Hrun.
  unfold AgentManager.initialize.
  unfold mbind at 1, M_bind at 1, get_self at 1. cbv beta iota. cbn [self].
  rewrite Hinit.
  unfold mbind at 1, M_bind at 1, logger at 1. cbv beta iota.
  unfold mbind at 1, M_bind at 1, modify_self at 1. cbv beta iota.
  cbn [sys_env sys_log self].
  unfold mbind at 1, M_bind at 1. rewrite Hrun.
  unfold AgentManager.register, mbind, M_bind, ext, modify_self. cbn.
  eexists. split; [reflexivity|]. cbn. split; [exact Hinit|]. split; [reflexivity|].
  split; [apply odict_get_set_eq|]. split; [|eauto].
  intros t Hne. by apply odict_get_set_ne.
Qed.

Lemma create_and_execute_run agent_type project_id task_data s :
  ∃ task_id s1 task,
    AgentManager.create_task agent_type project_id task_data "medium" s = (Ok task_id, s1)
    ∧ store s1 !! task_id = Some task
    ∧ AgentTask.agent_type task = agent_type
    ∧ AgentTask.task_data task = task_data
    ∧ AgentManager.agents (self s1) = AgentManager.agents (self s)
    ∧ sys_env s1 = snd (datetime_now (snd (datetime_now (sys_env s))))
    ∧ create_and_execute agent_type project_id task_data s
      = AgentManager.execute_task task_id s1.
Proof.
  pose proof (create_task_run s agent_type project_id task_data "medium") as Hc.
  destruct (datetime_now (sys_env s)) as [t0 env0]. cbn [snd].
  destruct (datetime_now env0) as [t1 env1]. cbn zeta in Hc.
  set (task_id := task_id_at agent_type project_id t0) in *.
  set (task := pending_task task_id agent_type project_id task_data "medium" t1) in *.
  set (s1 := mkSys env1 _ _) in Hc.
  exists task_id, s1, task. split; [exact Hc|]. split; [apply lookup_insert_eq|].
  do 4 (split; [reflexivity|]).
  unfold create_and_execute, mbind, M_bind. by rewrite Hc.
Qed.

(** X20.  [analyze_conversations] on a manager whose requirements agent
    is an initialized [RequirementsAgent] returns or raises what the
    extraction handler does on the payload made of the conversations, the
    project id and the discriminator [requirements_extraction], in the
    world that follows the two clock readings of the task creation.  On a
    manager without a requirements agent it fails with [AgentUnavailable]. *)
Theorem analyze_conversations_runs_the_extraction s project_id conversations :
  (∀ a, odict.get (AgentManager.agents (self s)) REQUIREMENTS = Some (Repo.Requirements a) →
        RequirementsAgent.is_initialized a = true →
        returned (AgentManager.analyze_conversations project_id conversations) s
          = fst (RequirementsAgent._extract_requirements a
                   (conversations_payload project_id conversations)
                   (snd (datetime_now (snd (datetime_now (sys_env s)))))))
  ∧ (odict.get (AgentManager.agents (self s)) REQUIREMENTS = None →
     returned (AgentManager.analyze_conversations project_id conversations) s
       = Raise (AgentUnavailable REQUIREMENTS)).
Proof.
  set (s0 := mkSys (sys_env s) (sys_log s ++ [LogAnalyzingConversations project_id])
               (self s)).
  destruct (create_and_execute_run REQUIREMENTS project_id
              (conversations_payload project_id conversations) s0)
    as (task_id & s1 & task & _ & Hk & Hty & Hdata & Hag & Henv & Hrun).
  change (returned (AgentManager.analyze_conversations project_id conversations) s)
    with (returned (create_and_execute REQUIREMENTS project_id
                      (conversations_payload project_id conversations)) s0).
  change (sys_env s0) with (sys_env s) in Henv.
  change (self s0) with (self s) in Hag.
  unfold returned. rewrite Hrun. split.
  - intros a Ha Hinit. rewrite <- Hag, <- Hty in Ha.
    rewrite (execute_task_run s1 task_id task _ Hk Ha). rewrite Hdata, Henv.
    assert (Hdispatch : ∀ env,
      agent_execute_task (Repo.Requirements a)
        (conversations_payload project_id conversations) env
      = RequirementsAgent._extract_requirements a
          (conversations_payload project_id conversations) env).
    { intros env. cbn. unfold RequirementsAgent.execute_task. rewrite Hinit. reflexivity. }
    rewrite Hdispatch.
    destruct (RequirementsAgent._extract_requirements a _ _) as [[r|e] env2]; cbn;
      [|reflexivity].
    by destruct (datetime_now env2).
  - intros Ha. rewrite <- Hag, <- Hty in Ha.
    rewrite (execute_task_no_agent s1 task_id task Hk Ha). cbn. by rewrite Hty.
Qed.

Lemma create_and_execute_without_method agent_type project_id task_data s :
  (∀ a, odict.get (AgentManager.agents (self s)) agent_type ≠ Some (Repo.Requirements a)) →
  ∃ e, returned (create_and_execute agent_type project_id task_data) s = Raise e
       ∧ (e = AgentUnavailable agent_type
          ∨ ∃ agent, odict.get (AgentManager.agents (self s)) agent_type = Some agent
                     ∧ e = no_attribute (Repo.class_name agent) "execute_task").
Proof.
  intros Hnot.
  destruct (create_and_execute_run agent_type project_id task_data s)
    as (task_id & s1 & task & _ & Hk & Hty & Hdata & Hag & Henv & Hrun).
  unfold returned. rewrite Hrun.
  destruct (odict.get (AgentManager.agents (self s)) agent_type) as [agent|] eqn:Ha.
  - rewrite <- Hag, <- Hty in Ha.
    rewrite (execute_task_run s1 task_id task _ Hk Ha).
    destruct agent as [a| | | |]; [by destruct (Hnot a)|..]; cbn;
      (eexists; split; [reflexivity|]; right; eexists; split; reflexivity).
  - rewrite <- Hag, <- Hty in Ha.
    rewrite (execute_task_no_agent s1 task_id task Hk Ha). cbn. rewrite Hty.
    eexists; split; [reflexivity|]. by left.
Qed.

(** X21.  With the agent classes of the repository, the convenience
    methods for the planning and communication agents never return:
    [generate_epics_and_stories], [update_user_story_status] and
    [schedule_meetings] fail with [AgentUnavailable] when no such agent is
    registered, and with the [AttributeError] of the missing
    [execute_task] when one is. *)
Theorem planning_and_communication_methods_fail s :
  (∀ a, odict.get (AgentManager.agents (self s)) PLANNING ≠ Some (Repo.Requirements a)) →
  (∀ a, odict.get (AgentManager.agents (self s)) COMMUNICATION
        ≠ Some (Repo.Requirements a)) →
  let fails (agent_type : AgentType) (r : outcome pyval) :=
    ∃ e, r = Raise e
         ∧ (e = AgentUnavailable agent_type
            ∨ ∃ agent, odict.get (AgentManager.agents (self s)) agent_type = Some agent
                       ∧ e = no_attribute (Repo.class_name agent) "execute_task") in
  (∀ project_id requirements,
     fails PLANNING
       (returned (AgentManager.generate_epics_and_stories project_id requirements) s))
  ∧ (∀ project_id story_id status completion_data,
       fails PLANNING
         (returned (AgentManager.update_user_story_status project_id story_id status
                      completion_data) s))
  ∧ (∀ project_id meeting_data,
       fails COMMUNICATION
         (returned (AgentManager.schedule_meetings project_id meeting_data) s)).
Proof.
  intros Hplan Hcomm fails. split; [|split]; intros; unfold fails.
  - apply (create_and_execute_without_method PLANNING _ _
             (mkSys (sys_env s) (sys_log s ++ [LogGeneratingEpics project_id]) (self s))
             Hplan).
  - apply (create_and_execute_without_method PLANNING _ _
             (mkSys (sys_env s) (sys_log s ++ [LogUpdatingStory story_id status]) (self s))
             Hplan).
  - apply (create_and_execute_without_method COMMUNICATION _ _
             (mkSys (sys_env s) (sys_log s ++ [LogSchedulingMeetings project_id]) (self s))
             Hcomm).
Qed.
End RepoMore.

(** ** The counts of [_categorize_requirements] add up *)
Section CategoriesTotal.

(** The sum of the values of a dictionary of counts, as [sum(d.values())]. *)
Lemma sum_values_insert (categories : gmap string Z) (c : string) (n : Z) :
  categories !! c = None →
  sum_values (<[c := n]> categories) = n + sum_values categories.
Proof.
  intros Hc. unfold sum_values. rewrite map_fold_insert_L; [reflexivity| |exact Hc].
  intros; lia.
Qed.

Lemma sum_values_one_more (categories : gmap string Z) (c : string) :
  sum_values (<[c := default 0 (categories !! c) + 1]> categories) = sum_values categories + 1.
Proof.
  destruct (categories !! c) as [n|] eqn:Hc; cbn [default].
  - assert (Hsplit : sum_values categories = n + sum_values (delete c categories)).
    { rewrite <- (insert_delete_id categories c n Hc) at 1.
      apply sum_values_insert, lookup_delete_eq. }
    rewrite <- insert_delete_eq, sum_values_insert by apply lookup_delete_eq.
    unfold id. lia.
  - rewrite sum_values_insert by exact Hc. lia.
Qed.

(** X22.  The counts that [_categorize_requirements] returns add up to the
    number of requirements it was given, whatever their categories are. *)
Theorem categorize_requirements_total {float}
    (requirements : list (RequirementsAgent.Requirement float)) :
  sum_values (RequirementsAgent._categorize_requirements requirements)
  = Z.of_nat (length requirements).
Proof.
  unfold RequirementsAgent._categorize_requirements.
  assert (Hfrom : ∀ categories : gmap string Z,
            sum_values (foldl (λ categories req,
                     <[RequirementsAgent.category req :=
                         default 0 (categories !! RequirementsAgent.category req) + 1]>
                       categories) categories requirements)
            = sum_values categories + Z.of_nat (length requirements)).
  { induction requirements as [|req requirements IH]; intros categories.
    - cbn. lia.
    - cbn [foldl]. rewrite IH, sum_values_one_more. cbn [length]. lia. }
  rewrite Hfrom. unfold sum_values. rewrite map_fold_empty. lia.
Qed.
End CategoriesTotal.

(** ** More runs *)
Section Tours.
Import Demo Scenario Tour.

Lemma send_message_returns_the_body_witness :
  ∃ s', MCPManager.send_message "notion" (VStr "hello") Online.notion_up
          = (Ok (VStr "hello"), s')
        ∧ self s' = self Online.notion_up.
Proof.
  destruct (MCPManager.send_message "notion" (VStr "hello") Online.notion_up)
    as [out s'] eqn:Hrun.
  assert (Hout : out = Ok (VStr "hello")).
  { pose proof Hrun as Hc. vm_compute in Hc. by injection Hc as <- _. }
  subst out. exists s'. split; [reflexivity|].
  destruct (send_message_returns_the_body _ _ _ _ _ Hrun)
    as (conn & response & env1 & _ & _ & _ & _ & _ & Hself & _).
  exact Hself.
Defined.

Lemma send_message_upstream_error_witness :
  returned (MCPManager.send_message "notion" (VStr "hello")) notion_down
    = Raise (mkExn Exception [Lit "Failed to send message: "; Lit "no server"]).
Proof.
  unfold returned.
  rewrite (send_message_upstream_error notion_down "notion" (VStr "hello")
             notion_connection (MCPManager.aiohttp_ClientSession false)
             no_server (Online.mkWorld 200 []) "no server" (Online.mkWorld 200 [])).
  - reflexivity.
  - vm_compute. reflexivity.
  - reflexivity.
  - vm_compute. reflexivity.
  - reflexivity.
  - vm_compute. reflexivity.
  - vm_compute. discriminate.
  - reflexivity.
Defined.

Lemma manager_initialize_twice_is_once_witness :
  ∃ out s1,
    AgentManager.initialize new_with_doubles = (out, s1)
    ∧ store s1 = store new_with_doubles.
Proof.
  destruct (AgentManager.initialize new_with_doubles) as [out s1] eqn:Hrun.
  exists out, s1. split; [reflexivity|].
  exact (proj1 (manager_initialize_twice_is_once _ _ _ Hrun)).
Defined.

Lemma manager_cleanup_outcome_witness :
  ∃ out s', AgentManager.cleanup completed = (out, s') ∧ store s' = store completed.
Proof.
  destruct (AgentManager.cleanup completed) as [out s'] eqn:Hrun.
  exists out, s'. split; [reflexivity|].
  exact (proj1 (manager_cleanup_outcome _ _ _ Hrun)).
Defined.

Lemma execute_task_writes_one_task_witness :
  ∃ out s',
    AgentManager.execute_task task_id created = (out, s')
    ∧ AgentManager.agents (self s') = AgentManager.agents (self created).
Proof.
  destruct (AgentManager.execute_task task_id created) as [out s'] eqn:Hrun.
  exists out, s'. split; [reflexivity|].
  exact (proj1 (execute_task_writes_one_task _ _ _ _ Hrun)).
Defined.

Lemma new_manager_ids : ids_consistent (store new_manager).
Proof. intros k task Hk. unfold store in Hk. cbn in Hk. by rewrite lookup_empty in Hk. Qed.

Lemma tasks_are_stored_under_their_id_witness :
  ids_consistent (store new_manager)
  ∧ ∀ out s',
      AgentManager.create_task REQUIREMENTS 42 payload "medium" new_manager = (out, s') →
      ids_consistent (store s').
Proof.
  split; [exact new_manager_ids|].
  intros out s'.
  apply (proj1 (tasks_are_stored_under_their_id new_manager new_manager_ids)).
Defined.

Lemma created_ids : ids_consistent (store created).
Proof.
  unfold created, run.
  destruct (AgentManager.create_task REQUIREMENTS 42 payload "medium" one_agent)
    as [out s'] eqn:Hrun.
  apply create_task_grows in Hrun as (id & task & _ & Hstore & Hid & _).
  cbn [snd]. rewrite Hstore. intros k t Hk.
  destruct (decide (k = id)) as [->|Hne].
  - rewrite lookup_insert_eq in Hk. by injection Hk as <-.
  - rewrite lookup_insert_ne in Hk by done. unfold store in Hk. cbn in Hk.
    by rewrite lookup_empty in Hk.
Qed.

Lemma get_all_tasks_lists_the_project_witness :
  ids_consistent (AgentManager.tasks (self created))
  ∧ length (AgentManager.get_all_tasks (self created) None)
    = size (AgentManager.tasks (self created)).
Proof.
  split; [exact created_ids|].
  apply (get_all_tasks_lists_the_project (self created) None created_ids).
Defined.

Lemma execute_workflow_without_agents_witness :
  AgentManager.agents (self new_manager) = []
  ∧ returned (AgentManager.execute_workflow 42 three_stages) new_manager
    = Raise (AgentUnavailable REQUIREMENTS).
Proof.
  split; [reflexivity|].
  pose proof (execute_workflow_without_agents 42 three_stages new_manager eq_refl) as Hrun.
  assert (Hp : present_stages three_stages = [REQUIREMENTS; PLANNING; TESTING])
    by (vm_compute; reflexivity).
  rewrite Hp in Hrun. destruct Hrun as (id1 & task & env' & Hrun & _).
  unfold returned. by rewrite Hrun.
Defined.

Lemma execute_task_needs_a_dictionary_witness :
  RequirementsAgent.is_initialized (RequirementsAgent.mk mcp_manager_ref None true) = true
  ∧ RequirementsAgent.execute_task (RequirementsAgent.mk mcp_manager_ref None true)
      (VStr "X") ([] : World)
    = (Raise (no_get (VStr "X")), []).
Proof.
  split; [reflexivity|].
  exact (execute_task_needs_a_dictionary (RequirementsAgent.mk mcp_manager_ref None true)
           (VStr "X") ([] : World) eq_refl).
Defined.

Lemma initialize_never_returns_witness :
  AgentManager.is_initialized (self new_manager) = false
  ∧ ∃ s', AgentManager.initialize new_manager
            = (Raise (arity_error "PlanningAgent" "1 positional argument" "2 were"), s')
          ∧ AgentManager.is_initialized (self s') = false.
Proof.
  split; [reflexivity|].
  destruct (initialize_never_returns new_manager eq_refl) as (s' & Hrun & Hflag & _).
  exists s'. split; assumption.
Defined.

Lemma planning_and_communication_methods_fail_witness :
  ∃ e, returned (AgentManager.generate_epics_and_stories 42 (VList [])) planning_only
       = Raise e.
Proof.
  assert (Hplan : ∀ a, odict.get (AgentManager.agents (self planning_only)) PLANNING
                       ≠ Some (Repo.Requirements a)) by (intros a; discriminate).
  assert (Hcomm : ∀ a, odict.get (AgentManager.agents (self planning_only)) COMMUNICATION
                       ≠ Some (Repo.Requirements a)) by (intros a; discriminate).
  destruct (proj1 (planning_and_communication_methods_fail planning_only Hplan Hcomm)
              42 (VList [])) as (e & Hrun & _).
  exists e. exact Hrun.
Defined.
End Tours.
